(** * Skybrush static CSV importer: the parser of
      [sbstudio/plugin/operators/add_markers_from_static_csv.py]

    The development embeds [parse_static_csv_zip] and the operator's
    [execute_on_formation], which consumes its result.

    Text is modelled with [string] (characters are code points below 256).
    Python's [csv.reader] is embedded as the state machine of CPython's
    [_csv] module under the dialect [csv.reader(lines, delimiter=",")]
    selects: delimiter [,], quote character code 34, doubled quotes, no
    escape character, no initial-space skipping, non-strict.  Fields are
    assumed shorter than [csv.field_size_limit()]: the check of that limit,
    which makes the reader raise [csv.Error] on a longer field, is not
    modelled, and what is stated of the reader holds for files within the
    limit.  The builtins [float] and [int] are an interface ([Builtins]);
    the theorems hold for every implementation of it. *)

From Stdlib Require Import String Ascii List ZArith Bool Lia.
Import ListNotations.
Open Scope string_scope.

Set Implicit Arguments.

(* ------------------------------------------------------------------ *)
(** ** Characters *)

Definition LF : ascii := "010"%char.
Definition CR : ascii := "013"%char.
Definition TAB : ascii := "009"%char.
Definition NUL : ascii := "000"%char.
Definition delimiter : ascii := ","%char.
Definition quotechar : ascii := "034"%char.
Definition squote : ascii := "'"%char.
Definition backslash : ascii := "\"%char.

Definition code (c : ascii) : N := N_of_ascii c.

(** [c == '\n' || c == '\r'] *)
Definition is_newline (c : ascii) : bool := Ascii.eqb c LF || Ascii.eqb c CR.

(** [str.lower] on one character: the cased letters below 256 are A-Z and
    the Latin-1 capitals 192-222 except the multiplication sign 215. *)
Definition lower_char (c : ascii) : ascii :=
  let n := code c in
  if ((65 <=? n) && (n <=? 90))%N then ascii_of_N (n + 32)
  else if ((192 <=? n) && (n <=? 222) && negb (n =? 215))%N
       then ascii_of_N (n + 32)
  else c.

(** [str.lower] *)
Fixpoint lower (s : string) : string :=
  match s with
  | EmptyString => EmptyString
  | String c rest => String (lower_char c) (lower rest)
  end.

(** [str.startswith] *)
Definition startswith (s p : string) : bool := String.prefix p s.

(** [sep.join(parts)] *)
Fixpoint join (sep : string) (parts : list string) : string :=
  match parts with
  | [] => ""
  | [p] => p
  | p :: rest => p ++ sep ++ join sep rest
  end.

(** [l[i:j]] for [0 <= i <= j] *)
Definition slice {A} (i j : nat) (l : list A) : list A :=
  firstn (j - i) (skipn i l).

(* ------------------------------------------------------------------ *)
(** ** [repr] of strings and of lists of strings *)

Definition hex_digit (n : N) : ascii :=
  if (n <? 10)%N then ascii_of_N (48 + n) else ascii_of_N (87 + n).

(** [str.isprintable] on one character, for the code points at and above 127 *)
Definition is_printable_high (c : ascii) : bool :=
  let n := code c in
  negb ((n <=? 160) || (n =? 173))%N.

Fixpoint contains_char (c : ascii) (s : string) : bool :=
  match s with
  | EmptyString => false
  | String d rest => Ascii.eqb c d || contains_char c rest
  end.

(** The quote [repr] encloses [s] in: the double quote when [s] holds a
    single quote and no double quote, the single quote otherwise. *)
Definition repr_quote (s : string) : ascii :=
  if contains_char squote s && negb (contains_char quotechar s)
  then quotechar else squote.

Definition repr_char (q c : ascii) : string :=
  let n := code c in
  if Ascii.eqb c q || Ascii.eqb c backslash then String backslash (String c "")
  else if Ascii.eqb c TAB then "\t"
  else if Ascii.eqb c LF then "\n"
  else if Ascii.eqb c CR then "\r"
  else if ((n <? 32) || (n =? 127) || ((127 <? n) && negb (is_printable_high c)))%N
       then String backslash
              (String "x" (String (hex_digit (n / 16)) (String (hex_digit (n mod 16)) "")))
  else String c "".

Fixpoint repr_body (q : ascii) (s : string) : string :=
  match s with
  | EmptyString => EmptyString
  | String c rest => repr_char q c ++ repr_body q rest
  end.

(** [repr(s)] for a [str] *)
Definition repr (s : string) : string :=
  let q := repr_quote s in
  String q (repr_body q s ++ String q "").

(** [repr(row)] for a list of [str] *)
Definition repr_list (row : list string) : string :=
  "[" ++ join ", " (map repr row) ++ "]".

(* ------------------------------------------------------------------ *)
(** ** Exceptions *)

Inductive exception : Type :=
| RuntimeError (message : string)
| OSError                         (* [open] failed, or the read did *)
| ValueError                      (* [open] on a path that holds a NUL *)
| UnicodeDecodeError              (* [list(csv_file)] on bytes that do not decode *)
| CsvError.                       (* [csv.Error] raised by the reader *)

Inductive outcome (A : Type) : Type :=
| Return (a : A)
| Raise (e : exception).
Arguments Raise {A} e.

Definition bind {A B} (m : outcome A) (k : A -> outcome B) : outcome B :=
  match m with
  | Return a => k a
  | Raise e => Raise e
  end.

Notation "x <- m ;; k" := (bind m (fun x => k))
  (at level 61, m at next level, right associativity).

(* ------------------------------------------------------------------ *)
(** ** Reading the file: [open(filename, "r")] and [list(csv_file)] *)

(** Why a file gives no text: [open] fails, [open] refuses a path that
    holds a NUL, or [list(csv_file)] meets bytes that do not decode. *)
Inductive read_failure : Type := cannot_open | nul_in_path | cannot_decode.

Definition raised_by (f : read_failure) : exception :=
  match f with
  | cannot_open => OSError
  | nul_in_path => ValueError
  | cannot_decode => UnicodeDecodeError
  end.

(** The files: [read] gives the decoded text of a file that opens and
    decodes, [failure] tells why another one does not. *)
Record filesystem : Type := mkFilesystem {
  read :> string -> option string;
  failure : string -> read_failure
}.

Implicit Types fs : filesystem.

(** [list(csv_file)] in text mode with universal newlines: the text is cut
    after every line ending, and each of the endings LF, CR and CR LF is
    read as one LF.  [cur] is the line being read; [pending_cr] tells that
    the character before was a CR, whose line is already cut, so that a LF
    coming next belongs to it. *)
Fixpoint readlines_from (cur : string) (pending_cr : bool) (text : string)
  : list string :=
  match text with
  | EmptyString => match cur with EmptyString => [] | _ => [cur] end
  | String c rest =>
      if Ascii.eqb c LF then
        if pending_cr then readlines_from cur false rest
        else (cur ++ String LF "") :: readlines_from "" false rest
      else if Ascii.eqb c CR then
        (cur ++ String LF "") :: readlines_from "" true rest
      else readlines_from (cur ++ String c "") false rest
  end.

Definition readlines (text : string) : list string :=
  readlines_from "" false text.

(* ------------------------------------------------------------------ *)
(** ** [csv.reader(lines, delimiter=",")] *)

Module Csv.

(** The parser states the dialect can reach (it has no escape character,
    which leaves out the three escape states). *)
Inductive ParserState : Type :=
| START_RECORD
| START_FIELD
| IN_FIELD
| IN_QUOTED_FIELD
| QUOTE_IN_QUOTED_FIELD
| EAT_CRNL.

Definition state_eqb (a b : ParserState) : bool :=
  match a, b with
  | START_RECORD, START_RECORD | START_FIELD, START_FIELD
  | IN_FIELD, IN_FIELD | IN_QUOTED_FIELD, IN_QUOTED_FIELD
  | QUOTE_IN_QUOTED_FIELD, QUOTE_IN_QUOTED_FIELD | EAT_CRNL, EAT_CRNL => true
  | _, _ => false
  end.

Record Reader : Type := mkReader {
  state : ParserState;
  fields : list string;     (* the fields of the record saved so far *)
  field : string            (* the characters of the current field *)
}.

(** [parse_reset] *)
Definition parse_reset : Reader := mkReader START_RECORD [] "".

Definition set_state (r : Reader) (s : ParserState) : Reader :=
  mkReader s (fields r) (field r).

(** [parse_save_field] *)
Definition parse_save_field (r : Reader) : Reader :=
  mkReader (state r) (fields r ++ [field r]) "".

(** [parse_add_char], without its check of the field size limit. *)
Definition parse_add_char (r : Reader) (c : ascii) : Reader :=
  mkReader (state r) (fields r) (field r ++ String c "").

(** The case [START_FIELD] of [parse_process_char], which [START_RECORD]
    falls through to.  [None] as a character is the end of a line. *)
Definition start_field (r : Reader) (c : option ascii) : option Reader :=
  match c with
  | None => Some (set_state (parse_save_field r) START_RECORD)
  | Some ch =>
      if is_newline ch then Some (set_state (parse_save_field r) EAT_CRNL)
      else if Ascii.eqb ch quotechar then Some (set_state r IN_QUOTED_FIELD)
      else if Ascii.eqb ch delimiter
           then Some (set_state (parse_save_field r) START_FIELD)
      else Some (set_state (parse_add_char r ch) IN_FIELD)
  end.

(** [parse_process_char]; [None] as a result is [csv.Error]. *)
Definition parse_process_char (r : Reader) (c : option ascii) : option Reader :=
  match state r with
  | START_RECORD =>
      match c with
      | None => Some r
      | Some ch =>
          if is_newline ch then Some (set_state r EAT_CRNL)
          else start_field r c
      end
  | START_FIELD => start_field r c
  | IN_FIELD =>
      match c with
      | None => Some (set_state (parse_save_field r) START_RECORD)
      | Some ch =>
          if is_newline ch then Some (set_state (parse_save_field r) EAT_CRNL)
          else if Ascii.eqb ch delimiter
               then Some (set_state (parse_save_field r) START_FIELD)
          else Some (parse_add_char r ch)
      end
  | IN_QUOTED_FIELD =>
      match c with
      | None => Some r
      | Some ch =>
          if Ascii.eqb ch quotechar then Some (set_state r QUOTE_IN_QUOTED_FIELD)
          else Some (parse_add_char r ch)
      end
  | QUOTE_IN_QUOTED_FIELD =>
      match c with
      | None => Some (set_state (parse_save_field r) START_RECORD)
      | Some ch =>
          if Ascii.eqb ch quotechar
          then Some (set_state (parse_add_char r ch) IN_QUOTED_FIELD)
          else if Ascii.eqb ch delimiter
               then Some (set_state (parse_save_field r) START_FIELD)
          else if is_newline ch
               then Some (set_state (parse_save_field r) EAT_CRNL)
          else Some (set_state (parse_add_char r ch) IN_FIELD)
      end
  | EAT_CRNL =>
      match c with
      | None => Some (set_state r START_RECORD)
      | Some ch => if is_newline ch then Some r else None
      end
  end.

(** The characters of one line, in order. *)
Fixpoint process_chars (r : Reader) (line : string) : option Reader :=
  match line with
  | EmptyString => Some r
  | String c rest =>
      match parse_process_char r (Some c) with
      | Some r' => process_chars r' rest
      | None => None
      end
  end.

(** One turn of the loop of [Reader_iternext]: a line, then its end. *)
Definition process_line (r : Reader) (line : string) : option Reader :=
  match process_chars r line with
  | Some r' => parse_process_char r' None
  | None => None
  end.

(** The rows the reader yields from [lines], [r] being the reader in the
    middle of a record, and whether it then raised [csv.Error].  A record
    ends when a line leaves the reader in [START_RECORD]; at the end of the
    input an unfinished record is yielded when it has a pending field or
    an open quote. *)
Fixpoint rows_from (r : Reader) (lines : list string) : list (list string) * bool :=
  match lines with
  | [] =>
      if negb (String.eqb (field r) "") || state_eqb (state r) IN_QUOTED_FIELD
      then ([fields (parse_save_field r)], false)
      else ([], false)
  | line :: rest =>
      match process_line r line with
      | None => ([], true)
      | Some r' =>
          if state_eqb (state r') START_RECORD
          then let (rows, failed) := rows_from parse_reset rest in
               (fields r' :: rows, failed)
          else rows_from r' rest
      end
  end.

Definition reader (lines : list string) : list (list string) * bool :=
  rows_from parse_reset lines.

End Csv.

(* ------------------------------------------------------------------ *)
(** ** The builtins [float] and [int] *)

(** [float(value)] and [int(value)] on a [str]; [None] is the [ValueError]
    of a text that does not coerce. *)
Class Builtins : Type := {
  pyfloat : Type;
  float : string -> option pyfloat;
  int : string -> option Z
}.

(** An implementation for plain decimal text, to run the parser on concrete
    files.  It reads what Python reads on such text: surrounding white space
    is dropped, a sign is optional, [int] wants digits, [float] wants digits
    with an optional fraction.  It knows no exponents, underscores, [inf] or
    [nan], and keeps a [float] as its unrounded decimal. *)
Module Decimal.

Record decimal : Type := mkDecimal {
  negative : bool;
  digits : N;               (* the digits read as one natural number *)
  scale : nat               (* how many of them follow the point *)
}.

Definition is_space (c : ascii) : bool :=
  let n := code c in ((n =? 32) || ((9 <=? n) && (n <=? 13)))%N.

Fixpoint lstrip (s : string) : string :=
  match s with
  | String c rest => if is_space c then lstrip rest else s
  | EmptyString => EmptyString
  end.

Fixpoint reverse (acc s : string) : string :=
  match s with
  | EmptyString => acc
  | String c rest => reverse (String c acc) rest
  end.

Definition strip (s : string) : string :=
  reverse "" (lstrip (reverse "" (lstrip s))).

Definition split_sign (s : string) : bool * string :=
  match s with
  | String "-" rest => (true, rest)
  | String "+" rest => (false, rest)
  | _ => (false, s)
  end.

Definition is_digit (c : ascii) : bool :=
  let n := code c in ((48 <=? n) && (n <=? 57))%N.

(** The leading digits of [s], added to [acc], how many there are, and
    what follows them. *)
Fixpoint read_digits (acc : N) (count : nat) (s : string) : N * nat * string :=
  match s with
  | String c rest =>
      if is_digit c then read_digits (acc * 10 + (code c - 48))%N (S count) rest
      else (acc, count, s)
  | EmptyString => (acc, count, s)
  end.

Definition int_of (s : string) : option Z :=
  let (neg, body) := split_sign (strip s) in
  match read_digits 0 0 body with
  | (n, S _, EmptyString) => Some (if neg then (- Z.of_N n)%Z else Z.of_N n)
  | _ => None
  end.

Definition float_of (s : string) : option decimal :=
  let (neg, body) := split_sign (strip s) in
  match read_digits 0 0 body with
  | (n, S _, EmptyString) => Some (mkDecimal neg n 0)
  | (n, whole, String "." frac) =>
      match read_digits n 0 frac with
      | (m, places, EmptyString) =>
          match whole + places with
          | O => None
          | S _ => Some (mkDecimal neg m places)
          end
      | _ => None
      end
  | _ => None
  end.

Definition builtins : Builtins :=
  {| pyfloat := decimal; float := float_of; int := int_of |}.

End Decimal.

(* ------------------------------------------------------------------ *)
(** ** [dict]: keys in insertion order *)

Definition Dict (V : Type) : Type := list (string * V).

(** [k in d] *)
Fixpoint dict_contains {V} (k : string) (d : Dict V) : bool :=
  match d with
  | [] => false
  | (k', _) :: rest => String.eqb k k' || dict_contains k rest
  end.

(** [d.get(k)] *)
Fixpoint dict_get {V} (k : string) (d : Dict V) : option V :=
  match d with
  | [] => None
  | (k', v) :: rest => if String.eqb k k' then Some v else dict_get k rest
  end.

(** [d[k] = v]: a key already present keeps its place, a new one goes last. *)
Fixpoint dict_setitem {V} (k : string) (v : V) (d : Dict V) : Dict V :=
  match d with
  | [] => [(k, v)]
  | (k', v') :: rest =>
      if String.eqb k k' then (k, v) :: rest else (k', v') :: dict_setitem k v rest
  end.

(** [list(d.keys())] and [list(d.values())] *)
Definition dict_keys {V} (d : Dict V) : list string := map fst d.
Definition dict_values {V} (d : Dict V) : list V := map snd d.

(* ------------------------------------------------------------------ *)
(** ** The importer *)

Section Importer.

Context {B : Builtins}.

(** Modelled from the spec: [Point3D] and [Color3D] of [sbstudio.model], a
    position of three real coordinates and a color of three integer
    channels, built as [Point3D(x, y, z)] and [Color3D(r, g, b)]. *)
Record Point3D : Type := mkPoint3D { x : pyfloat; y : pyfloat; z : pyfloat }.
Record Color3D : Type := mkColor3D { r : Z; g : Z; b : Z }.

Record ImportedData : Type := mkImportedData {
  position : Point3D;
  color : Color3D
}.

(** [x, y, z = (float(value) for value in values)]: it raises unless there
    are three values and each coerces. *)
Definition unpack_floats (values : list string) : option Point3D :=
  match map float values with
  | [Some x; Some y; Some z] => Some (mkPoint3D x y z)
  | _ => None
  end.

(** [r, g, b = (int(value) for value in values)] *)
Definition unpack_ints (values : list string) : option Color3D :=
  match map int values with
  | [Some r; Some g; Some b] => Some (mkColor3D r g b)
  | _ => None
  end.

(** The [try] block on a row: the name with the coerced position and
    color, or [None] when an exception is raised in it. *)
Definition try_block (row : list string) : option (string * Point3D * Color3D) :=
  match row with
  | [] => None
  | name :: _ =>
      match unpack_floats (slice 1 4 row) with
      | None => None
      | Some xyz =>
          if (4 <? length row)%nat then
            match unpack_ints (slice 4 7 row) with
            | None => None
            | Some rgb => Some (name, xyz, rgb)
            end
          else Some (name, xyz, mkColor3D 255 255 255)
      end
  end.

Definition invalid_content (filename : string) (row : list string) : exception :=
  RuntimeError ("Invalid content in input CSV file " ++ repr filename
                ++ ", row " ++ repr_list row).

Definition duplicate_name (name : string) : exception :=
  RuntimeError ("Duplicate object name in input CSV file: " ++ name).

(** From "parse line and check for errors" to the end of the loop body:
    the row is coerced, its name checked and its entry stored. *)
Definition store_row (filename : string) (result : Dict ImportedData)
           (row : list string) : outcome (Dict ImportedData) :=
  match try_block row with
  | None => Raise (invalid_content filename row)
  | Some (name, xyz, rgb) =>
      if dict_contains name result then Raise (duplicate_name name)
      else Return (dict_setitem name (mkImportedData xyz rgb) result)
  end.

(** The variables of the loop. *)
Record loop_state : Type := mkState {
  result : Dict ImportedData;
  header_passed : bool
}.

Definition initial : loop_state := mkState [] false.

(** The body of [for row in csv.reader(...)]. *)
Definition loop_body (filename : string) (st : loop_state)
           (row : list string) : outcome loop_state :=
  match row with
  | [] => Return st                                   (* skip empty lines *)
  | field0 :: _ =>
      if negb (header_passed st) && startswith (lower field0) "name"
      then Return (mkState (result st) true)          (* skip the header *)
      else
        result' <- store_row filename (result st) row ;;
        Return (mkState result' true)
  end.

Fixpoint for_rows (filename : string) (rows : list (list string))
         (st : loop_state) : outcome loop_state :=
  match rows with
  | [] => Return st
  | row :: rest =>
      st' <- loop_body filename st row ;;
      for_rows filename rest st'
  end.

(** [parse_static_csv_zip(filename, context)]; the Blender context is not
    used.  [open] and [list(csv_file)] come before the loop, and what they
    raise leaves the function.  The reader is an iterator: the rows it
    yields before a [csv.Error] go through the loop first. *)
Definition parse_static_csv_zip (fs : filesystem) (filename : string)
  : outcome (Dict ImportedData) :=
  match fs filename with
  | None => Raise (raised_by (failure fs filename))
  | Some text =>
      let lines := readlines text in
      let (rows, failed) := Csv.reader lines in
      st <- for_rows filename rows initial ;;
      if failed then Raise CsvError else Return (result st)
  end.

(** *** What [execute_on_formation] makes of the result *)

(** [as_vector] of [Point3D] and of [Color3D] is not among the sources;
    both are parameters. *)
Variables (vector channel : Type).
Variable point_as_vector : Point3D -> vector.
Variable color_as_vector : Color3D -> list channel.

(** [[item.position.as_vector() for item in imported_data.values()]] *)
Definition formation_points (imported_data : Dict ImportedData) : list vector :=
  map (fun item => point_as_vector (position item)) (dict_values imported_data).

(** The list handed to [image.pixels.foreach_set]: the elements of
    [colors = [item.color.as_vector() for item in imported_data.values()]]
    chained. *)
Definition light_effect_pixels (imported_data : Dict ImportedData) : list channel :=
  concat (map (fun item => color_as_vector (color item)) (dict_values imported_data)).

(** *** The specification's reading of the rows *)

(** Row classification: rows without fields are dropped; the first row
    with fields is dropped as well when its first field begins with
    "name" in any case; all other rows are data rows.  [seen] tells
    whether a row with fields came before. *)
Fixpoint data_rows (seen : bool) (rows : list (list string)) : list (list string) :=
  match rows with
  | [] => []
  | [] :: rest => data_rows seen rest
  | (field0 :: tl) :: rest =>
      if negb seen && startswith (lower field0) "name"
      then data_rows true rest
      else (field0 :: tl) :: data_rows true rest
  end.

(** The data rows stored one after the other, with no header check. *)
Fixpoint store_rows (filename : string) (rows : list (list string))
         (result : Dict ImportedData) : outcome (Dict ImportedData) :=
  match rows with
  | [] => Return result
  | row :: rest =>
      result' <- store_row filename result row ;;
      store_rows filename rest result'
  end.

(** The entry a data row stands for, when its fields coerce. *)
Definition entry_of (row : list string) : option (string * ImportedData) :=
  match try_block row with
  | Some (name, xyz, rgb) => Some (name, mkImportedData xyz rgb)
  | None => None
  end.

(** [row[0]] *)
Definition name_of (row : list string) : string := hd "" row.

(** A row with fields. *)
Definition nonblank (row : list string) : bool :=
  match row with [] => false | _ :: _ => true end.

(** No header: the first row with fields, if there is one, has a first
    field that does not begin with "name" in any case. *)
Definition no_header (rows : list (list string)) : Prop :=
  match filter nonblank rows with
  | [] => True
  | row :: _ => startswith (lower (name_of row)) "name" = false
  end.

(** A row in the file format: a name and three coordinates, then either
    nothing (the default color) or three color channels. *)
Inductive encodes : list string -> string -> ImportedData -> Prop :=
| encodes_position name fx fy fz x y z :
    float fx = Some x -> float fy = Some y -> float fz = Some z ->
    encodes [name; fx; fy; fz] name
            (mkImportedData (mkPoint3D x y z) (mkColor3D 255 255 255))
| encodes_position_color name fx fy fz fr fg fb x y z r g b :
    float fx = Some x -> float fy = Some y -> float fz = Some z ->
    int fr = Some r -> int fg = Some g -> int fb = Some b ->
    encodes [name; fx; fy; fz; fr; fg; fb] name
            (mkImportedData (mkPoint3D x y z) (mkColor3D r g b)).

(** Field coercion fails on a row: a coordinate is missing or is not a
    number, or the row has more than four fields and a color channel is
    missing or is not an integer. *)
Definition coercion_fails (row : list string) : Prop :=
  (length row < 4
   \/ (exists i, 1 <= i <= 3 /\ float (nth i row "") = None)
   \/ (4 < length row
       /\ (length row < 7 \/ exists i, 4 <= i <= 6 /\ int (nth i row "") = None)))%nat.

End Importer.

Arguments formation_points {B vector} point_as_vector imported_data.
Arguments light_effect_pixels {B channel} color_as_vector imported_data.

(** A file system with one file; a path that holds a NUL is refused, any
    other path but that of the file does not open. *)
Definition single_file (path text : string) : filesystem :=
  mkFilesystem
    (fun p => if contains_char NUL p then None
              else if String.eqb p path then Some text else None)
    (fun p => if contains_char NUL p then nul_in_path else cannot_open).

(** Rows written out as text, one per line, fields separated by commas. *)
Definition render_line (row : list string) : string :=
  join "," row ++ String LF "".

Fixpoint render (rows : list (list string)) : string :=
  match rows with
  | [] => ""
  | row :: rest => render_line row ++ render rest
  end.

(** A field that needs no quoting. *)
Fixpoint plain (s : string) : bool :=
  match s with
  | EmptyString => true
  | String c rest =>
      negb (is_newline c || Ascii.eqb c quotechar || Ascii.eqb c delimiter)
      && plain rest
  end.

(** A text without line endings. *)
Fixpoint one_line (s : string) : bool :=
  match s with
  | EmptyString => true
  | String c rest => negb (is_newline c) && one_line rest
  end.

(** A line as [readlines] cuts them: no line ending inside, one LF or
    nothing at the end. *)
Definition text_line (s : string) : Prop :=
  exists body,
    one_line body = true /\ (s = body \/ s = (body ++ String LF "")%string).


(* ------------------------------------------------------------------ *)
(** ** The rows of a file, and other ways to write them *)

(** The rows the reader yields from the text of a file. *)
Definition file_rows (text : string) : list (list string) :=
  fst (Csv.reader (readlines text)).

(** A text whose lines end in LF, written with another line ending. *)
Fixpoint with_line_ending (ending text : string) : string :=
  match text with
  | EmptyString => EmptyString
  | String c rest =>
      if Ascii.eqb c LF then ending ++ with_line_ending ending rest
      else String c (with_line_ending ending rest)
  end.

Definition CRLF : string := String CR (String LF "").

(** A text without carriage returns. *)
Fixpoint no_CR (s : string) : bool :=
  match s with
  | EmptyString => true
  | String c rest => negb (Ascii.eqb c CR) && no_CR rest
  end.






(** A text [repr] writes as it is between single quotes: printable ASCII
    without the single quote and the backslash. *)
Fixpoint verbatim (s : string) : bool :=
  match s with
  | EmptyString => true
  | String c rest =>
      ((32 <=? code c) && (code c <? 127))%N
      && negb (Ascii.eqb c squote) && negb (Ascii.eqb c backslash)
      && verbatim rest
  end.

(* ------------------------------------------------------------------ *)
(** ** The operator: [AddMarkersFromStaticCSVOperator.execute_on_formation] *)

(** The operator talks to Blender only through calls whose results it does
    not look at; a run is modelled by the list of these calls, in order,
    and the returned status.  The calls are assumed to return normally. *)
Section Operator.

Context {B : Builtins}.
Variables (vector channel : Type).
Variable point_as_vector : Point3D -> vector.
Variable color_as_vector : Color3D -> list channel.

(** [bpy.path.ensure_ext] is not among the sources; it is a parameter. *)
Variable ensure_ext : string -> string -> string.

Inductive host_call : Type :=
| report (level message : string)
| add_points_to_formation (points : list vector)
| append_new_entry (name : string) (frame_start duration : Z) (select : bool)
| set_output (output : string)
| create_color_image (name : string) (width height : nat)
| pixels_foreach_set (pixels : list channel).

Inductive status : Type := FINISHED | CANCELLED.

(** What [get_first_entry_for_formation] returns, when it returns an entry. *)
Record StoryboardEntry : Type := mkStoryboardEntry {
  entry_frame_start : Z;
  entry_duration : Z
}.

(** What the operator reads: [self.filepath], [formation.name], the first
    storyboard entry of the formation, [context.scene.frame_start], and
    whether [context.scene.skybrush.light_effects] is true. *)
Record Invocation : Type := mkInvocation {
  self_filepath : string;
  formation_name : string;
  storyboard_entry : option StoryboardEntry;
  scene_frame_start : Z;
  light_effects : bool
}.

Definition filename_ext : string := ".csv".

(** [execute_on_formation(self, formation, context)].  Only [RuntimeError]
    is caught; any other exception of the parser leaves the operator. *)
Definition execute_on_formation (fs : filesystem) (inv : Invocation)
  : outcome (list host_call * status) :=
  let filepath := ensure_ext (self_filepath inv) filename_ext in
  match parse_static_csv_zip fs filepath with
  | Raise (RuntimeError error) => Return ([report "ERROR" error], CANCELLED)
  | Raise e => Raise e
  | Return imported_data =>
      let frame_start :=
        match storyboard_entry inv with
        | Some entry => entry_frame_start entry
        | None => scene_frame_start inv
        end in
      let duration :=
        match storyboard_entry inv with
        | Some entry => entry_duration entry
        | None => 1%Z
        end in
      let points := formation_points point_as_vector imported_data in
      let marker_calls :=
        match points with
        | [] => [report "ERROR" "Formation would be empty, nothing was created"]
        | _ :: _ => [add_points_to_formation points]
        end in
      let light_calls :=
        if light_effects inv then
          let colors :=
            map (fun item => color_as_vector (color item))
                (dict_values imported_data) in
          [ append_new_entry (formation_name inv) frame_start duration true;
            set_output "INDEXED_BY_FORMATION";
            create_color_image
              ("Image for light effect '" ++ formation_name inv ++ "'")
              1 (length colors);
            pixels_foreach_set (light_effect_pixels color_as_vector imported_data) ]
        else [] in
      Return ((marker_calls ++ light_calls)%list, FINISHED)
  end.

(** [invoke(self, context, event)] opens the file selector and returns
    [{"RUNNING_MODAL"}]; it computes nothing and is left out. *)

End Operator.

Arguments report {vector channel} level message.
Arguments add_points_to_formation {vector channel} points.
Arguments append_new_entry {vector channel} name frame_start duration select.
Arguments set_output {vector channel} output.
Arguments create_color_image {vector channel} name width height.
Arguments pixels_foreach_set {vector channel} pixels.

(* ------------------------------------------------------------------ *)
(** ** Counting characters, and looking for a text in a message *)

(** [s in t] for two [str] *)
Fixpoint is_substring (s t : string) : bool :=
  String.prefix s t
  || match t with
     | EmptyString => false
     | String _ rest => is_substring s rest
     end.







(* ------------------------------------------------------------------ *)
(** ** Sample files *)

Module Samples.

#[local] Existing Instance Decimal.builtins.

Definition path : string := "markers.csv".

Definition decimal (neg : bool) (digits : N) (scale : nat) : Decimal.decimal :=
  Decimal.mkDecimal neg digits scale.

(** Two markers, the second one colored. *)
Definition markers : list (list string) :=
  [ ["P1"; "1.0"; "2.0"; "3.0"];
    ["P2"; "0"; "-1.5"; "2"; "10"; "20"; "30"] ].

Definition markers_entries : Dict ImportedData :=
  [ ("P1", mkImportedData
             (mkPoint3D (decimal false 10 1) (decimal false 20 1) (decimal false 30 1))
             (mkColor3D 255 255 255));
    ("P2", mkImportedData
             (mkPoint3D (decimal false 0 0) (decimal true 15 1) (decimal false 2 0))
             (mkColor3D 10 20 30)) ].

(** An empty line, a header, and a marker whose name begins like one. *)
Definition with_header : list (list string) :=
  [ []; ["Name"; "x"; "y"; "z"]; ["name2"; "1"; "2"; "3"] ].

(** The same name twice. *)
Definition twice : list (list string) :=
  [ ["P1"; "1"; "2"; "3"]; ["P1"; "4"; "5"; "6"] ].

(** The loop variables after the first row of [twice]. *)
Definition after_first : loop_state :=
  mkState
    [ ("P1", mkImportedData
               (mkPoint3D (decimal false 1 0) (decimal false 2 0) (decimal false 3 0))
               (mkColor3D 255 255 255)) ]
    true.

(** A coordinate that is not a number. *)
Definition malformed : list (list string) := [ ["P1"; "abc"; "2.0"; "3.0"] ].


(** A marker without a name. *)
Definition nameless : list (list string) := [ [""; "1.0"; "2.0"; "3.0"] ].

Definition P1_white : ImportedData :=
  mkImportedData
    (mkPoint3D (decimal false 10 1) (decimal false 20 1) (decimal false 30 1))
    (mkColor3D 255 255 255).

(** A stand-in for [Color3D.as_vector]: the three channels. *)
Definition channels (c : Color3D) : list Z := [r c; g c; b c].

End Samples.

Module OperatorSamples.

#[local] Existing Instance Decimal.builtins.



(** A stand-in for [bpy.path.ensure_ext] on a path without extension. *)
Definition add_ext (filepath ext : string) : string := filepath ++ ext.

Definition import_markers : Invocation :=
  mkInvocation "markers" "Formation" (Some (mkStoryboardEntry 10 50)) 1 true.

Definition calls_of_markers : list (host_call Point3D Z) :=
  [ add_points_to_formation (map position (dict_values Samples.markers_entries));
    append_new_entry "Formation" 10 50 true;
    set_output "INDEXED_BY_FORMATION";
    create_color_image "Image for light effect 'Formation'" 1 2;
    pixels_foreach_set [255; 255; 255; 10; 20; 30]%Z ].

(** The markers with empty lines around them. *)
Definition spread_markers : list (list string) :=
  [ []; ["P1"; "1.0"; "2.0"; "3.0"]; []; [];
    ["P2"; "0"; "-1.5"; "2"; "10"; "20"; "30"]; [] ].

(** The loop variables after the row of P2 has come after that of P1. *)
Definition after_second : loop_state :=
  mkState
    (result Samples.after_first
     ++ [ ("P2", mkImportedData
                   (mkPoint3D (Samples.decimal false 0 0) (Samples.decimal true 15 1)
                              (Samples.decimal false 2 0))
                   (mkColor3D 10 20 30)) ])%list
    true.

End OperatorSamples.

Module EdgeSamples.

#[local] Existing Instance Decimal.builtins.

(** A name with a backslash, first on a row that coerces, then on one that
    does not. *)
Definition backslash_twice : list (list string) :=
  [ ["a\b"; "1"; "2"; "3"]; ["a\b"; "x"; "2"; "3"] ].

(** The loop variables after the first row of [backslash_twice]. *)
Definition after_backslash : loop_state :=
  mkState
    [ ("a\b", mkImportedData
                (mkPoint3D (Samples.decimal false 1 0) (Samples.decimal false 2 0)
                           (Samples.decimal false 3 0))
                (mkColor3D 255 255 255)) ]
    true.


End EdgeSamples.

(* ================================================================== *)
(** * Properties *)

Local Open Scope list_scope.

(** ** Strings *)


Lemma append_assoc (s t u : string) :
  ((s ++ t) ++ u)%string = (s ++ t ++ u)%string.
Proof. induction s as [|c s IH]; simpl; [reflexivity | now rewrite IH]. Qed.

(** ** Dictionaries *)

Section DictFacts.

Variable V : Type.
Implicit Types (d : Dict V) (k : string) (v : V).

Lemma dict_contains_In k d : dict_contains k d = true <-> In k (dict_keys d).
Proof.
  induction d as [|[k' v'] d IH]; simpl.
  - split; [discriminate | contradiction].
  - rewrite orb_true_iff, IH, String.eqb_eq. intuition congruence.
Qed.

Lemma dict_contains_not_In k d : dict_contains k d = false <-> ~ In k (dict_keys d).
Proof.
  rewrite <- dict_contains_In. destruct (dict_contains k d); intuition congruence.
Qed.

(** Setting a key the dictionary does not hold appends the entry. *)
Lemma dict_setitem_new k v d :
  dict_contains k d = false -> dict_setitem k v d = d ++ [(k, v)].
Proof.
  induction d as [|[k' v'] d IH]; simpl; [reflexivity|].
  intros H. apply orb_false_iff in H as [Hk Hd].
  rewrite Hk, IH by assumption. reflexivity.
Qed.

Lemma dict_keys_app d d' : dict_keys (d ++ d') = dict_keys d ++ dict_keys d'.
Proof. apply map_app. Qed.

(** With distinct keys, every entry is the one its key looks up. *)
Lemma dict_get_In k v d :
  NoDup (dict_keys d) -> In (k, v) d -> dict_get k d = Some v.
Proof.
  induction d as [|[k' v'] d IH]; simpl; [contradiction|].
  intros Hnd [Heq | Hin].
  - inversion Heq; subst. now rewrite String.eqb_refl.
  - inversion Hnd as [|? ? Hnotin Hnd']; subst.
    destruct (String.eqb_spec k k') as [->|_]; [|now apply IH].
    exfalso. apply Hnotin. change (In (fst (k', v)) (map fst d)).
    now apply in_map.
Qed.

End DictFacts.

(** ** The loop *)

Section LoopFacts.

Context {B : Builtins}.
Implicit Types (row : list string) (rows : list (list string)).
Implicit Types (d : Dict ImportedData) (st : loop_state).

Lemma try_block_name row name xyz rgb :
  try_block row = Some (name, xyz, rgb) -> name = name_of row.
Proof.
  unfold try_block. destruct row as [|n tl]; [discriminate|].
  destruct (unpack_floats _); [|discriminate].
  destruct (4 <? _)%nat; [destruct (unpack_ints _)|];
    try discriminate; now intros [= <- _ _].
Qed.

Lemma entry_of_name row e : entry_of row = Some e -> fst e = name_of row.
Proof.
  unfold entry_of. destruct (try_block row) as [[[n xyz] rgb]|] eqn:E; [|discriminate].
  intros [= <-]. simpl. eapply try_block_name; eassumption.
Qed.

(** What storing a row does, in terms of the entry it stands for. *)
Lemma store_row_entry filename d row :
  store_row filename d row =
  match entry_of row with
  | None => Raise (invalid_content filename row)
  | Some (name, data) =>
      if dict_contains name d then Raise (duplicate_name name)
      else Return (d ++ [(name, data)])
  end.
Proof.
  unfold store_row, entry_of.
  destruct (try_block row) as [[[n xyz] rgb]|]; [|reflexivity].
  destruct (dict_contains n d) eqn:E; [reflexivity|].
  now rewrite dict_setitem_new.
Qed.

Lemma for_rows_app filename rows rows' st :
  for_rows filename (rows ++ rows') st =
  (st' <- for_rows filename rows st ;; for_rows filename rows' st').
Proof.
  revert st. induction rows as [|row rows IH]; intros st; simpl; [reflexivity|].
  destruct (loop_body filename st row); simpl; [apply IH | reflexivity].
Qed.

(** The loop stores exactly the rows the specification classifies as data
    rows, in their order. *)
Lemma for_rows_data_rows filename rows st :
  (st' <- for_rows filename rows st ;; Return (result st')) =
  store_rows filename (data_rows (header_passed st) rows) (result st).
Proof.
  revert st. induction rows as [|row rows IH]; intros st; simpl; [reflexivity|].
  destruct row as [|field0 tl]; simpl; [apply IH|].
  destruct (negb (header_passed st) && startswith (lower field0) "name"); simpl.
  - apply (IH (mkState (result st) true)).
  - destruct (store_row filename (result st) (field0 :: tl)) as [d|e]; simpl;
      [apply (IH (mkState d true)) | reflexivity].
Qed.

(** A successful run of [store_rows] appends one entry per row. *)
Lemma store_rows_Return filename rows d d' :
  store_rows filename rows d = Return d' ->
  exists entries,
    d' = d ++ entries /\ map entry_of rows = map Some entries
    /\ (NoDup (dict_keys d) -> NoDup (dict_keys d')).
Proof.
  revert d. induction rows as [|row rows IH]; intros d; simpl.
  - intros [= <-]. exists []. now rewrite app_nil_r.
  - rewrite store_row_entry.
    destruct (entry_of row) as [[name data]|]; [|discriminate].
    destruct (dict_contains name d) eqn:Hc; [discriminate|]. simpl.
    intros H. apply IH in H as (entries & -> & Hmap & Hnd).
    exists ((name, data) :: entries). simpl. split; [|split].
    + now rewrite <- app_assoc.
    + now rewrite Hmap.
    + intros Hd. apply Hnd. rewrite dict_keys_app. simpl.
      apply NoDup_app; [assumption | repeat constructor; intros [] |].
      intros k Hk [<-|[]]. now apply dict_contains_not_In in Hc.
Qed.

(** Rows that coerce to entries with fresh, distinct names are all stored. *)
Lemma store_rows_entries filename rows entries d :
  map entry_of rows = map Some entries ->
  NoDup (dict_keys (d ++ entries)) ->
  store_rows filename rows d = Return (d ++ entries).
Proof.
  revert entries d. induction rows as [|row rows IH]; intros [|[name data] entries] d;
    simpl; try discriminate.
  - intros _ _. now rewrite app_nil_r.
  - intros [= Hrow Hmap] Hnd. rewrite store_row_entry, Hrow.
    assert (Hc : dict_contains name d = false).
    { apply dict_contains_not_In. rewrite dict_keys_app in Hnd. simpl in Hnd.
      intros Hin. apply NoDup_remove_2 in Hnd. apply Hnd, in_or_app. now left. }
    rewrite Hc. simpl.
    replace (d ++ (name, data) :: entries) with ((d ++ [(name, data)]) ++ entries)
      in * by now rewrite <- app_assoc.
    now apply IH.
Qed.

End LoopFacts.

(** ** The reader on rows written without quoting *)

Module CsvFacts.
Import Csv.


Lemma plain_app s s' : plain (s ++ s')%string = plain s && plain s'.
Proof.
  induction s as [|c s IH]; simpl; [reflexivity|].
  now rewrite IH, andb_assoc.
Qed.

Lemma process_chars_app rd s s' :
  process_chars rd (s ++ s')%string =
  match process_chars rd s with
  | Some rd' => process_chars rd' s'
  | None => None
  end.
Proof.
  revert rd. induction s as [|c s IH]; intros rd; simpl; [reflexivity|].
  destruct (parse_process_char rd (Some c)); [apply IH | reflexivity].
Qed.









Lemma one_line_app s s' : one_line (s ++ s')%string = one_line s && one_line s'.
Proof.
  induction s as [|c s IH]; simpl; [reflexivity|].
  now rewrite IH, andb_assoc.
Qed.




(** *** The reader does not fail on the lines of a file *)

Lemma readlines_from_text_lines cur pending_cr text :
  one_line cur = true -> Forall text_line (readlines_from cur pending_cr text).
Proof.
  revert cur pending_cr. induction text as [|c text IH]; intros cur pending Hcur; simpl.
  - destruct cur; constructor; [|constructor]. now exists (String a cur); auto.
  - destruct (Ascii.eqb c LF) eqn:Hlf; [destruct pending|].
    + now apply IH.
    + constructor; [exists cur; auto | now apply IH].
    + destruct (Ascii.eqb c CR) eqn:Hcr.
      * constructor; [exists cur; auto | now apply IH].
      * apply IH. rewrite one_line_app, Hcur. simpl.
        unfold is_newline. now rewrite Hlf, Hcr.
Qed.

Lemma readlines_text_lines text : Forall text_line (readlines text).
Proof. now apply readlines_from_text_lines. Qed.

(** Characters that end no line never lead to [csv.Error], nor to the
    state that waits for the end of the line. *)
Lemma process_chars_one_line rd s :
  one_line s = true -> state rd <> EAT_CRNL ->
  exists rd', process_chars rd s = Some rd' /\ state rd' <> EAT_CRNL.
Proof.
  revert rd. induction s as [|c s IH]; intros rd Hs Hrd; simpl; [eauto|].
  simpl in Hs. apply andb_true_iff in Hs as [Hc Hs]. apply negb_true_iff in Hc.
  assert (Hstep : exists rd', parse_process_char rd (Some c) = Some rd'
                              /\ state rd' <> EAT_CRNL).
  { unfold parse_process_char, start_field.
    destruct (state rd) eqn:E; try congruence; rewrite ?Hc;
      repeat match goal with
             | |- context [if ?b then _ else _] => destruct b
             end; eexists; (split; [reflexivity | simpl; congruence]). }
  destruct Hstep as (rd' & -> & Hrd'). now apply IH.
Qed.

(** The end of a line leaves the reader between records or in a quoted
    field. *)
Lemma process_line_text_line rd s :
  text_line s -> state rd <> EAT_CRNL ->
  exists rd', process_line rd s = Some rd' /\ state rd' <> EAT_CRNL.
Proof.
  intros (body & Hbody & Hs) Hrd. unfold process_line.
  assert (Hend : forall rd0, exists rd', parse_process_char rd0 None = Some rd'
                                         /\ state rd' <> EAT_CRNL).
  { intros rd0. unfold parse_process_char, start_field.
    destruct (state rd0) eqn:E; eexists; (split; [reflexivity | simpl; congruence]). }
  destruct (@process_chars_one_line _ _ Hbody Hrd) as (rd1 & H1 & Hrd1).
  destruct Hs as [-> | ->].
  - rewrite H1. apply Hend.
  - rewrite process_chars_app, H1. simpl.
    assert (Hlf : exists rd2, parse_process_char rd1 (Some LF) = Some rd2).
    { unfold parse_process_char, start_field.
      destruct (state rd1); try congruence; simpl; eauto. }
    destruct Hlf as (rd2 & ->). apply Hend.
Qed.

Lemma rows_from_text_lines rd lines :
  Forall text_line lines -> state rd <> EAT_CRNL -> snd (rows_from rd lines) = false.
Proof.
  intros Hlines. revert rd. induction Hlines as [|line lines Hline _ IH];
    intros rd Hrd; simpl.
  - now destruct (negb (field rd =? "")%string || state_eqb (state rd) IN_QUOTED_FIELD).
  - destruct (@process_line_text_line _ _ Hline Hrd) as (rd' & -> & Hrd').
    destruct (state_eqb (state rd') START_RECORD); [|now apply IH].
    specialize (IH parse_reset). destruct (rows_from parse_reset lines).
    simpl in *. apply IH. discriminate.
Qed.

(** Within the field size limit, the reader raises no [csv.Error] on the
    lines of a file read in text mode. *)
Lemma reader_readlines text : snd (reader (readlines text)) = false.
Proof.
  apply rows_from_text_lines; [apply readlines_text_lines | discriminate].
Qed.


End CsvFacts.

(** ** The parser *)

Section ParserFacts.

Context {B : Builtins}.
Implicit Types (row : list string) (rows : list (list string)).
Implicit Types (d : Dict ImportedData) (st : loop_state).

Lemma parse_unfold fs filename text rows failed :
  fs filename = Some text ->
  Csv.reader (readlines text) = (rows, failed) ->
  parse_static_csv_zip fs filename =
  (st <- for_rows filename rows initial ;;
   if failed then Raise CsvError else Return (result st)).
Proof.
  intros Hfs Hrows. unfold parse_static_csv_zip. now rewrite Hfs, Hrows.
Qed.

(** With a reader that does not fail, the parser stores the data rows. *)
Lemma parse_store_rows fs filename text rows :
  fs filename = Some text ->
  Csv.reader (readlines text) = (rows, false) ->
  parse_static_csv_zip fs filename = store_rows filename (data_rows false rows) [].
Proof.
  intros Hfs Hrows. rewrite (parse_unfold _ _ Hfs Hrows).
  apply (for_rows_data_rows filename rows initial).
Qed.

(** Within the field size limit the parser raises no [csv.Error]: what it
    raises is an exception of [open] or of the read, or a [RuntimeError] of
    the loop. *)
Lemma parse_no_csv_error fs filename :
  parse_static_csv_zip fs filename <> Raise CsvError.
Proof.
  unfold parse_static_csv_zip.
  destruct (fs filename) as [text|];
    [|destruct (failure fs filename); discriminate].
  pose proof (CsvFacts.reader_readlines text) as Hok.
  destruct (Csv.reader (readlines text)) as [rows failed]. simpl in Hok. subst failed.
  assert (Hloop : forall rows st, for_rows filename rows st <> Raise CsvError).
  { clear. induction rows as [|row rows IH]; intros st; simpl; [discriminate|].
    destruct row as [|field0 tl]; simpl; [apply IH|].
    destruct (negb (header_passed st) && startswith (lower field0) "name"); simpl;
      [apply IH|].
    unfold store_row.
    destruct (try_block (field0 :: tl)) as [[[name xyz] rgb]|]; [|discriminate].
    destruct (dict_contains name (result st)); simpl; [discriminate | apply IH]. }
  specialize (Hloop rows initial).
  destruct (for_rows filename rows initial); simpl; [discriminate|].
  intros [= ->]. now apply Hloop.
Qed.

(** An exception raised in the loop is the parser's. *)
Lemma parse_Raise fs filename text rows failed e :
  fs filename = Some text ->
  Csv.reader (readlines text) = (rows, failed) ->
  for_rows filename rows initial = Raise e ->
  parse_static_csv_zip fs filename = Raise e.
Proof.
  intros Hfs Hrows Hloop. rewrite (parse_unfold _ _ Hfs Hrows), Hloop. reflexivity.
Qed.

Lemma data_rows_seen rows : data_rows true rows = filter nonblank rows.
Proof.
  induction rows as [|[|f tl] rows IH]; simpl; [reflexivity | assumption |].
  now rewrite IH.
Qed.

Lemma data_rows_no_header rows :
  no_header rows -> data_rows false rows = filter nonblank rows.
Proof.
  unfold no_header.
  induction rows as [|[|f tl] rows IH]; simpl; [reflexivity | assumption |].
  intros ->. simpl. now rewrite data_rows_seen.
Qed.

Lemma encodes_entry_of row name data :
  encodes row name data -> entry_of row = Some (name, data).
Proof.
  intros H. destruct H; unfold entry_of, try_block, unpack_floats, unpack_ints;
    simpl; repeat match goal with E : _ = Some _ |- _ => rewrite E; clear E end;
    reflexivity.
Qed.

Lemma encodes_map_entry_of rows (entries : Dict ImportedData) :
  Forall2 (fun row e => encodes row (fst e) (snd e)) rows entries ->
  map entry_of rows = map Some entries.
Proof.
  induction 1 as [|row [name data] rows entries H _ IH]; simpl; [reflexivity|].
  now rewrite (encodes_entry_of H), IH.
Qed.

Lemma Forall2_In_l {X Y} (P : X -> Y -> Prop) l l' a :
  Forall2 P l l' -> In a l -> exists b, In b l' /\ P a b.
Proof.
  induction 1 as [|a' b' l l' H _ IH]; simpl; [contradiction|].
  intros [<-|Hin]; [exists b'; auto|].
  destruct (IH Hin) as (b0 & Hb & HP). exists b0; auto.
Qed.

(** C1: for every valid input file whose N rows with fields each encode a
    name, a position and optionally a color, with pairwise distinct names
    and no header row, the parser returns a mapping with exactly N
    entries, and for each row the entry keyed by the row's name holds the
    position coerced from fields 1-3 and the color coerced from fields
    4-6, or the default color when the row has none. *)
Theorem parse_round_trip fs filename text rows (entries : Dict ImportedData) :
  fs filename = Some text ->
  Csv.reader (readlines text) = (rows, false) ->
  Forall2 (fun row e => encodes row (fst e) (snd e)) (filter nonblank rows) entries ->
  NoDup (dict_keys entries) ->
  no_header rows ->
  exists d,
    parse_static_csv_zip fs filename = Return d
    /\ length d = length (filter nonblank rows)
    /\ forall row name data,
         In row (filter nonblank rows) -> encodes row name data ->
         dict_get name d = Some data.
Proof.
  intros Hfs Hrows Henc Hnd Hhdr. exists entries. split; [|split].
  - rewrite (parse_store_rows _ _ Hfs Hrows), (data_rows_no_header _ Hhdr).
    apply (store_rows_entries filename _ entries []);
      [now apply encodes_map_entry_of | assumption].
  - symmetry. eapply Forall2_length; eassumption.
  - intros row name data Hin Hrow.
    destruct (@Forall2_In_l _ _ _ _ _ _ Henc Hin) as ([name' data'] & Hin' & Hrow').
    simpl in Hrow'.
    pose proof (encodes_entry_of Hrow) as E. rewrite (encodes_entry_of Hrow') in E.
    injection E as <- <-. now apply dict_get_In.
Qed.

(** Rows without fields leave the loop variables as they are. *)
Lemma for_rows_blanks filename blanks st :
  Forall (fun row => row = []) blanks -> for_rows filename blanks st = Return st.
Proof.
  induction 1 as [|row blanks -> _ IH]; simpl; [reflexivity | assumption].
Qed.

Lemma data_rows_blanks seen blanks rows :
  Forall (fun row => row = []) blanks ->
  data_rows seen (blanks ++ rows) = data_rows seen rows.
Proof.
  induction 1 as [|row blanks -> _ IH]; simpl; [reflexivity | assumption].
Qed.

(** [header_passed] is set by the first row with fields, for good. *)
Lemma for_rows_header_passed filename rows st st' :
  for_rows filename rows st = Return st' ->
  header_passed st' = header_passed st || existsb nonblank rows.
Proof.
  revert st. induction rows as [|row rows IH]; intros st; simpl.
  - intros [= <-]. now rewrite orb_false_r.
  - destruct row as [|field0 tl]; simpl; [apply IH|].
    rewrite orb_true_r.
    destruct (negb (header_passed st) && startswith (lower field0) "name"); simpl.
    + intros H. now rewrite (IH _ H).
    + destruct (store_row filename (result st) (field0 :: tl)); simpl;
        [|discriminate].
      intros H. now rewrite (IH _ H).
Qed.

Lemma data_rows_nonblank seen rows row :
  In row (data_rows seen rows) -> In row rows /\ nonblank row = true.
Proof.
  revert seen. induction rows as [|[|f tl] rows IH]; intros seen; simpl;
    [contradiction | intros H; apply IH in H; tauto |].
  destruct (negb seen && startswith (lower f) "name"); simpl.
  - intros H. apply IH in H. tauto.
  - intros [<-|H]; [auto | apply IH in H; tauto].
Qed.

Lemma In_existsb_nonblank rows row :
  In row rows -> nonblank row = true -> existsb nonblank rows = true.
Proof. intros Hin Hnb. apply existsb_exists. now exists row. Qed.

(** After a successful run of the loop, the result holds the entries of
    the data rows, in their order, under distinct keys. *)
Lemma for_rows_Return filename rows st :
  for_rows filename rows initial = Return st ->
  map entry_of (data_rows false rows) = map Some (result st)
  /\ NoDup (dict_keys (result st)).
Proof.
  intros H. pose proof (for_rows_data_rows filename rows initial) as E.
  rewrite H in E. simpl in E. symmetry in E.
  apply store_rows_Return in E as (entries & -> & Hmap & Hnd).
  split; [assumption | apply Hnd; constructor].
Qed.

Lemma map_entry_of_keys rows (d : Dict ImportedData) :
  map entry_of rows = map Some d -> dict_keys d = map name_of rows.
Proof.
  revert d. induction rows as [|row rows IH]; intros [|e d]; simpl;
    try discriminate; [reflexivity|].
  intros [= He Hd]. now rewrite (entry_of_name _ He), (IH _ Hd).
Qed.

(** The parser returns only when the reader did not fail and the loop ran
    to its end. *)
Lemma parse_Return fs filename d :
  parse_static_csv_zip fs filename = Return d ->
  exists text rows st,
    fs filename = Some text /\ Csv.reader (readlines text) = (rows, false)
    /\ for_rows filename rows initial = Return st /\ d = result st.
Proof.
  unfold parse_static_csv_zip.
  destruct (fs filename) as [text|] eqn:Hfs; [|discriminate].
  destruct (Csv.reader (readlines text)) as [rows failed] eqn:Hrows.
  destruct (for_rows filename rows initial) as [st|e] eqn:E; simpl; [|discriminate].
  destruct failed; [discriminate|]. intros [= <-].
  exists text, rows, st. auto.
Qed.

End ParserFacts.

(** ** Row classification and errors *)

Section RowFacts.

Context {B : Builtins}.
Implicit Types (row : list string) (rows : list (list string)).
Implicit Types (d : Dict ImportedData) (st : loop_state).

(** C2: the header heuristic applies to the first row with fields only.
    That row is skipped, leaving the result empty, if and only if its
    first field, lowercased, begins with "name"; the rows after it are all
    stored as data rows, whatever their first field begins with. *)
Theorem header_heuristic_first_row_only
        fs filename text blanks field0 tl rest :
  fs filename = Some text ->
  Csv.reader (readlines text) = (blanks ++ (field0 :: tl) :: rest, false) ->
  Forall (fun row => row = []) blanks ->
  (for_rows filename (blanks ++ [field0 :: tl]) initial = Return (mkState [] true)
   <-> startswith (lower field0) "name" = true)
  /\ parse_static_csv_zip fs filename =
     if startswith (lower field0) "name"
     then store_rows filename (filter nonblank rest) []
     else store_rows filename ((field0 :: tl) :: filter nonblank rest) [].
Proof.
  intros Hfs Hrows Hblanks. split.
  - rewrite for_rows_app, (for_rows_blanks _ _ Hblanks). simpl.
    destruct (startswith (lower field0) "name"); simpl; [tauto|].
    rewrite store_row_entry.
    destruct (entry_of (field0 :: tl)) as [[name data]|]; simpl;
      split; discriminate.
  - rewrite (parse_store_rows _ _ Hfs Hrows), (data_rows_blanks _ _ Hblanks).
    simpl. destruct (startswith (lower field0) "name"); now rewrite data_rows_seen.
Qed.

Lemma prefix_refl s : String.prefix s s = true.
Proof.
  induction s as [|c s IH]; [reflexivity|]. cbn [String.prefix].
  now destruct (Ascii.ascii_dec c c).
Qed.

(** A message that ends with a text holds it. *)
Lemma is_substring_end s t : is_substring s (t ++ s)%string = true.
Proof.
  induction t as [|c t IH].
  - destruct s; cbn [append is_substring]; rewrite prefix_refl; reflexivity.
  - cbn [append is_substring]. rewrite IH. apply orb_true_r.
Qed.

(** C3, as the code has it: when the loop reaches a row with fields whose
    name is the name of an entry stored from an earlier data row, the
    parser raises and returns no mapping.  When the fields of the row
    coerce, the error is the duplicate-name error, whose message ends with
    the name and so holds it; when they do not, the error is the content
    error of the row, raised by its own [try] block before the name is
    looked up. *)
Theorem duplicate_name_rejected
        fs filename text rows failed pre row post earlier st :
  fs filename = Some text ->
  Csv.reader (readlines text) = (rows, failed) ->
  rows = pre ++ row :: post ->
  for_rows filename pre initial = Return st ->
  In earlier (data_rows false pre) ->
  row <> [] ->
  name_of row = name_of earlier ->
  exists message,
    parse_static_csv_zip fs filename = Raise (RuntimeError message)
    /\ match entry_of row with
       | Some _ =>
           message
           = ("Duplicate object name in input CSV file: " ++ name_of row)%string
           /\ is_substring (name_of row) message = true
       | None =>
           message
           = ("Invalid content in input CSV file " ++ repr filename
              ++ ", row " ++ repr_list row)%string
       end.
Proof.
  intros Hfs Hrows -> Hpre Hin Hne Hname.
  assert (Hhp : header_passed st = true).
  { rewrite (for_rows_header_passed _ _ _ Hpre). simpl.
    apply data_rows_nonblank in Hin as [Hin Hnb].
    eapply In_existsb_nonblank; eassumption. }
  assert (Hdup : dict_contains (name_of row) (result st) = true).
  { destruct (for_rows_Return _ _ Hpre) as [Hmap _].
    apply dict_contains_In. rewrite (map_entry_of_keys _ _ Hmap), Hname.
    now apply in_map. }
  assert (Hloop : for_rows filename (pre ++ row :: post) initial
                  = match entry_of row with
                    | Some _ => Raise (duplicate_name (name_of row))
                    | None => Raise (invalid_content filename row)
                    end).
  { rewrite for_rows_app, Hpre. simpl.
    destruct row as [|field0 tl]; [congruence|].
    unfold loop_body. rewrite Hhp. simpl. rewrite store_row_entry.
    destruct (entry_of (field0 :: tl)) as [[name data]|] eqn:E; [|reflexivity].
    apply entry_of_name in E. simpl in E. subst name.
    change field0 with (name_of (field0 :: tl)) at 1. now rewrite Hdup. }
  destruct (entry_of row); eexists; (split; [eapply parse_Raise; eassumption|]).
  - split; [reflexivity | apply is_substring_end].
  - reflexivity.
Qed.

(** The [try] block raises on every row whose coercion fails. *)
Lemma coercion_fails_try_block row : coercion_fails row -> try_block row = None.
Proof.
  unfold coercion_fails, try_block, unpack_floats, unpack_ints, slice.
  destruct row as [|name [|fx [|fy [|fz tl]]]]; simpl;
    try (intros _; repeat destruct (float _); reflexivity).
  intros H.
  destruct (float fx) eqn:Ex, (float fy) eqn:Ey, (float fz) eqn:Ez; try reflexivity.
  destruct H as [H | [(i & Hi & H) | (Hlen & H)]].
  - lia.
  - destruct i as [|[|[|[|i]]]]; simpl in H; try lia; congruence.
  - destruct tl as [|fr [|fg [|fb tl]]]; simpl in *; try lia;
      try (repeat destruct (int _); reflexivity).
    destruct (int fr) eqn:Er, (int fg) eqn:Eg, (int fb) eqn:Eb; try reflexivity.
    destruct H as [H | (i & Hi & H)]; [lia|].
    destruct i as [|[|[|[|[|[|[|i]]]]]]]; simpl in H; try lia; congruence.
Qed.

(** It raises on no other row with fields. *)
Lemma try_block_None row :
  try_block row = None -> row = [] \/ coercion_fails row.
Proof.
  unfold coercion_fails, try_block, unpack_floats, unpack_ints, slice.
  destruct row as [|name [|fx [|fy [|fz tl]]]]; simpl; auto;
    try (intros _; right; left; lia).
  intros H. right. right.
  destruct (float fx) eqn:Ex; [|left; exists 1; split; [lia | assumption]].
  destruct (float fy) eqn:Ey; [|left; exists 2; split; [lia | assumption]].
  destruct (float fz) eqn:Ez; [|left; exists 3; split; [lia | assumption]].
  right.
  destruct tl as [|fr [|fg [|fb tl]]]; simpl in *; try discriminate;
    try (split; [lia | left; lia]).
  split; [lia|]. right.
  destruct (int fr) eqn:Er; [|exists 4; split; [lia | assumption]].
  destruct (int fg) eqn:Eg; [|exists 5; split; [lia | assumption]].
  destruct (int fb) eqn:Eb; [|exists 6; split; [lia | assumption]].
  discriminate.
Qed.

(** C4: when the loop reaches a data row on which field coercion fails (a
    coordinate missing or not a number or, in a row of more than four
    fields, a color channel missing or not an integer), the parser raises
    the content error, whose message holds the file path and the row as
    [repr] writes them, and returns no mapping. *)
Theorem invalid_content_rejected
        fs filename text rows failed pre row post st :
  fs filename = Some text ->
  Csv.reader (readlines text) = (rows, failed) ->
  rows = pre ++ row :: post ->
  for_rows filename pre initial = Return st ->
  data_rows (header_passed st) [row] = [row] ->
  coercion_fails row ->
  parse_static_csv_zip fs filename =
  Raise (RuntimeError
           ("Invalid content in input CSV file " ++ repr filename
            ++ ", row " ++ repr_list row)%string).
Proof.
  intros Hfs Hrows -> Hpre Hdata Hfail.
  eapply parse_Raise; [eassumption..|].
  rewrite for_rows_app, Hpre. simpl.
  destruct row as [|field0 tl]; [discriminate|]. simpl in *.
  destruct (negb (header_passed st) && startswith (lower field0) "name");
    [discriminate|].
  unfold store_row. now rewrite (coercion_fails_try_block Hfail).
Qed.

End RowFacts.

(** ** The returned mapping *)

Section ResultFacts.

Context {B : Builtins}.
Variables (vector channel : Type).
Variable point_as_vector : Point3D -> vector.
Variable color_as_vector : Color3D -> list channel.
Implicit Types (row : list string) (rows : list (list string)).
Implicit Types (d : Dict ImportedData) (st : loop_state).

Lemma map_entry_of_values {X} (f : ImportedData -> X) rows d :
  map entry_of rows = map Some d ->
  map (fun row => option_map (fun e => f (snd e)) (entry_of row)) rows
  = map Some (map f (dict_values d)).
Proof.
  revert d. induction rows as [|row rows IH]; intros [|e d]; simpl;
    try discriminate; [reflexivity|].
  intros [= -> Hd]. simpl. now rewrite (IH _ Hd).
Qed.

(** C5: on every successful parse the keys of the returned mapping are
    pairwise distinct and the mapping lists the entries of the data rows
    in the order of the file; the points and the chained colors the
    caller builds from the values follow the same order. *)
Theorem result_in_file_order fs filename d :
  parse_static_csv_zip fs filename = Return d ->
  NoDup (dict_keys d)
  /\ exists text rows,
       fs filename = Some text
       /\ Csv.reader (readlines text) = (rows, false)
       /\ map entry_of (data_rows false rows) = map Some d
       /\ dict_keys d = map name_of (data_rows false rows)
       /\ map Some (formation_points point_as_vector d)
          = map (fun row => option_map (fun e => point_as_vector (position (snd e)))
                                       (entry_of row))
                (data_rows false rows)
       /\ light_effect_pixels color_as_vector d
          = concat (map (fun row => match entry_of row with
                                    | Some e => color_as_vector (color (snd e))
                                    | None => []
                                    end)
                        (data_rows false rows)).
Proof.
  intros H. apply parse_Return in H as (text & rows & st & Hfs & Hrows & Hloop & ->).
  destruct (for_rows_Return _ _ Hloop) as [Hmap Hnd].
  split; [assumption|]. exists text, rows.
  repeat (split; [assumption|]).
  split; [now apply map_entry_of_keys|].
  unfold formation_points, light_effect_pixels. split.
  - symmetry.
    now apply (map_entry_of_values (fun item => point_as_vector (position item))).
  - f_equal. revert Hmap. generalize (data_rows false rows) (result st).
    induction l as [|row l IH]; intros [|e d]; simpl; try discriminate;
      [reflexivity|].
    intros [= -> Hd]. now rewrite (IH _ Hd).
Qed.

(** C9, as the code has it: every key of a returned mapping is the first
    field, as the reader yields it, of a data row of the file, and every
    data row gives its first field as a key; nothing requires the field
    to hold a character. *)
Theorem keys_are_first_fields fs filename d :
  parse_static_csv_zip fs filename = Return d ->
  exists text rows,
    fs filename = Some text
    /\ Csv.reader (readlines text) = (rows, false)
    /\ forall name,
         In name (dict_keys d) <->
         exists tl, In (name :: tl) (data_rows false rows).
Proof.
  intros H. apply parse_Return in H as (text & rows & st & Hfs & Hrows & Hloop & ->).
  destruct (for_rows_Return _ _ Hloop) as [Hmap _].
  exists text, rows. repeat (split; [assumption|]).
  intros name. rewrite (map_entry_of_keys _ _ Hmap), in_map_iff. split.
  - intros ([|field0 tl] & <- & Hin).
    + now apply data_rows_nonblank in Hin as [_ Hnb].
    + now exists tl.
  - intros (tl & Hin). now exists (name :: tl).
Qed.

End ResultFacts.

(** ** What the reader keeps of a text *)

Module CountFacts.
Import Csv CsvFacts.














End CountFacts.

(** ** Colors and extra fields *)

Section FieldFacts.

Context {B : Builtins}.
Implicit Types (row : list string) (d : Dict ImportedData) (st : loop_state).

(** A data row that coerces and whose name is new is stored last. *)
Lemma loop_body_stores filename st row name data :
  encodes row name data ->
  header_passed st = true \/ startswith (lower name) "name" = false ->
  dict_contains name (result st) = false ->
  loop_body filename st row = Return (mkState (result st ++ [(name, data)]) true).
Proof.
  intros Henc Hdata Hnew.
  assert (Hrow : exists tl, row = name :: tl) by (destruct Henc; eauto).
  destruct Hrow as (tl & ->). unfold loop_body.
  replace (negb (header_passed st) && startswith (lower name) "name") with false
    by (destruct Hdata as [-> | ->]; [reflexivity | now rewrite andb_false_r]).
  rewrite store_row_entry, (encodes_entry_of Henc), Hnew. reflexivity.
Qed.

(** C6: a data row of exactly four fields whose coordinates coerce is
    stored with the color (255, 255, 255); a data row of seven fields
    whose coordinates and color channels coerce is stored with the color
    coerced from fields 4-6. *)
Theorem stored_color filename st name fx fy fz x y z :
  float fx = Some x -> float fy = Some y -> float fz = Some z ->
  header_passed st = true \/ startswith (lower name) "name" = false ->
  dict_contains name (result st) = false ->
  loop_body filename st [name; fx; fy; fz]
  = Return (mkState (result st
                     ++ [(name, mkImportedData (mkPoint3D x y z)
                                               (mkColor3D 255 255 255))])
                    true)
  /\ forall fr fg fb r g b,
       int fr = Some r -> int fg = Some g -> int fb = Some b ->
       loop_body filename st [name; fx; fy; fz; fr; fg; fb]
       = Return (mkState (result st
                          ++ [(name, mkImportedData (mkPoint3D x y z)
                                                    (mkColor3D r g b))])
                         true).
Proof.
  intros Hx Hy Hz Hdata Hnew. split; [|intros fr fg fb r g b Hr Hg Hb];
    apply loop_body_stores; try assumption; now constructor.
Qed.

(** C10: a data row of more than seven fields whose first seven fields
    coerce is accepted: its entry is stored under its name, with the
    position coerced from fields 1-3 and the color coerced from fields
    4-6.  The fields from index 7 on are not looked at: in every state
    the loop does on the row what it does on the row cut after field 6. *)
Theorem extra_fields_ignored
        filename st name fx fy fz fr fg fb x y z r g b extra :
  float fx = Some x -> float fy = Some y -> float fz = Some z ->
  int fr = Some r -> int fg = Some g -> int fb = Some b ->
  header_passed st = true \/ startswith (lower name) "name" = false ->
  dict_contains name (result st) = false ->
  loop_body filename st ([name; fx; fy; fz; fr; fg; fb] ++ extra)
  = Return (mkState (result st
                     ++ [(name, mkImportedData (mkPoint3D x y z)
                                               (mkColor3D r g b))])
                    true)
  /\ try_block ([name; fx; fy; fz; fr; fg; fb] ++ extra)
     = Some (name, mkPoint3D x y z, mkColor3D r g b)
  /\ forall st',
       loop_body filename st' ([name; fx; fy; fz; fr; fg; fb] ++ extra)
       = loop_body filename st' [name; fx; fy; fz; fr; fg; fb].
Proof.
  intros Hx Hy Hz Hr Hg Hb Hdata Hnew.
  assert (Htry : forall more,
             try_block ([name; fx; fy; fz; fr; fg; fb] ++ more)
             = Some (name, mkPoint3D x y z, mkColor3D r g b)).
  { intros more. unfold try_block, unpack_floats, unpack_ints, slice. simpl.
    now rewrite Hx, Hy, Hz, Hr, Hg, Hb. }
  assert (Hsame : forall st',
             loop_body filename st' ([name; fx; fy; fz; fr; fg; fb] ++ extra)
             = loop_body filename st' [name; fx; fy; fz; fr; fg; fb]).
  { intros st'. unfold loop_body, store_row. simpl app.
    change (name :: fx :: fy :: fz :: fr :: fg :: fb :: extra)
      with ([name; fx; fy; fz; fr; fg; fb] ++ extra).
    rewrite Htry. pose proof (Htry []) as Hseven. simpl app in Hseven.
    now rewrite Hseven. }
  split; [|split; [apply Htry | exact Hsame]].
  rewrite Hsame. apply loop_body_stores; try assumption. now constructor.
Qed.

(** C8, as the code has it: a first row with fields whose first field
    begins with "name" in any case, "Name1" included, is taken for the
    header and skipped: the loop goes on with the rows after it and an
    empty result. *)
Theorem name_prefix_is_header filename blanks field0 tl rest :
  Forall (fun row => row = []) blanks ->
  startswith (lower field0) "name" = true ->
  for_rows filename (blanks ++ (field0 :: tl) :: rest) initial
  = for_rows filename rest (mkState [] true).
Proof.
  intros Hblanks Hname.
  rewrite for_rows_app, (for_rows_blanks _ _ Hblanks). simpl.
  now rewrite Hname.
Qed.


End FieldFacts.

(** ** The theorems on sample files *)

Section SampleRuns.

Import Samples.
#[local] Existing Instance Decimal.builtins.

Lemma parse_round_trip_markers :
  exists d,
    parse_static_csv_zip (single_file path (render markers)) path = Return d
    /\ length d = length (filter nonblank markers)
    /\ forall row name data,
         In row (filter nonblank markers) -> encodes row name data ->
         dict_get name d = Some data.
Proof.
  apply (@parse_round_trip Decimal.builtins (single_file path (render markers)) path
                           (render markers) markers markers_entries).
  - reflexivity.
  - reflexivity.
  - repeat constructor.
  - repeat constructor; simpl; intuition discriminate.
  - reflexivity.
Defined.

Lemma header_heuristic_with_header :
  (for_rows path ([[]] ++ [["Name"; "x"; "y"; "z"]]) initial
   = Return (mkState [] true)
   <-> startswith (lower "Name") "name" = true)
  /\ parse_static_csv_zip (single_file path (render with_header)) path =
     if startswith (lower "Name") "name"
     then store_rows path (filter nonblank [["name2"; "1"; "2"; "3"]]) []
     else store_rows path
            (["Name"; "x"; "y"; "z"] :: filter nonblank [["name2"; "1"; "2"; "3"]]) [].
Proof.
  apply (@header_heuristic_first_row_only Decimal.builtins (single_file path (render with_header))
           path (render with_header) [[]] "Name" ["x"; "y"; "z"]
           [["name2"; "1"; "2"; "3"]]).
  - reflexivity.
  - reflexivity.
  - repeat constructor.
Defined.

Lemma duplicate_name_rejected_twice :
  exists message,
    parse_static_csv_zip (single_file path (render twice)) path
    = Raise (RuntimeError message)
    /\ match entry_of ["P1"; "4"; "5"; "6"] with
       | Some _ =>
           message
           = ("Duplicate object name in input CSV file: "
              ++ name_of ["P1"; "4"; "5"; "6"])%string
           /\ is_substring (name_of ["P1"; "4"; "5"; "6"]) message = true
       | None =>
           message
           = ("Invalid content in input CSV file " ++ repr path
              ++ ", row " ++ repr_list ["P1"; "4"; "5"; "6"])%string
       end.
Proof.
  apply (@duplicate_name_rejected Decimal.builtins (single_file path (render twice)) path
           (render twice) twice false [["P1"; "1"; "2"; "3"]] ["P1"; "4"; "5"; "6"] []
           ["P1"; "1"; "2"; "3"] after_first).
  - reflexivity.
  - reflexivity.
  - reflexivity.
  - reflexivity.
  - simpl. left. reflexivity.
  - discriminate.
  - reflexivity.
Defined.

Lemma invalid_content_rejected_malformed :
  parse_static_csv_zip (single_file path (render malformed)) path =
  Raise (RuntimeError
           "Invalid content in input CSV file 'markers.csv', row ['P1', 'abc', '2.0', '3.0']").
Proof.
  apply (@invalid_content_rejected Decimal.builtins (single_file path (render malformed)) path
           (render malformed) malformed false [] ["P1"; "abc"; "2.0"; "3.0"] []
           initial).
  - reflexivity.
  - reflexivity.
  - reflexivity.
  - reflexivity.
  - reflexivity.
  - right. left. exists 1. split; [lia | reflexivity].
Defined.

Lemma result_in_file_order_markers :
  NoDup (dict_keys markers_entries)
  /\ exists text rows,
       single_file path (render markers) path = Some text
       /\ Csv.reader (readlines text) = (rows, false)
       /\ map entry_of (data_rows false rows) = map Some markers_entries
       /\ dict_keys markers_entries = map name_of (data_rows false rows)
       /\ map Some (formation_points (fun p => p) markers_entries)
          = map (fun row => option_map (fun e => position (snd e)) (entry_of row))
                (data_rows false rows)
       /\ light_effect_pixels channels markers_entries
          = concat (map (fun row => match entry_of row with
                                    | Some e => channels (color (snd e))
                                    | None => []
                                    end)
                        (data_rows false rows)).
Proof.
  apply (@result_in_file_order Decimal.builtins Point3D Z (fun p => p) channels
           (single_file path (render markers)) path markers_entries).
  reflexivity.
Defined.

Lemma keys_are_first_fields_nameless :
  exists text rows,
    single_file path (render nameless) path = Some text
    /\ Csv.reader (readlines text) = (rows, false)
    /\ forall name,
         In name (dict_keys [("", P1_white)]) <->
         exists tl, In (name :: tl) (data_rows false rows).
Proof.
  apply (@keys_are_first_fields Decimal.builtins (single_file path (render nameless)) path
           [("", P1_white)]).
  reflexivity.
Defined.

Lemma stored_color_P1 :
  loop_body path initial ["P1"; "1.0"; "2.0"; "3.0"]
  = Return (mkState [("P1", P1_white)] true)
  /\ loop_body path initial ["P1"; "1.0"; "2.0"; "3.0"; "10"; "20"; "30"]
     = Return (mkState [("P1", mkImportedData (position P1_white)
                                              (mkColor3D 10 20 30))] true).
Proof.
  destruct (@stored_color Decimal.builtins path initial "P1" "1.0" "2.0" "3.0"
              (decimal false 10 1) (decimal false 20 1) (decimal false 30 1))
    as [Hwhite Hcolor].
  - reflexivity.
  - reflexivity.
  - reflexivity.
  - right. reflexivity.
  - reflexivity.
  - split; [exact Hwhite|].
    exact (Hcolor "10" "20" "30" 10%Z 20%Z 30%Z eq_refl eq_refl eq_refl).
Defined.

Lemma extra_fields_ignored_P1 :
  loop_body path initial
            (["P1"; "1.0"; "2.0"; "3.0"; "10"; "20"; "30"] ++ ["40"; "note"])
  = Return (mkState (result initial
                     ++ [("P1", mkImportedData (position P1_white)
                                               (mkColor3D 10 20 30))])
                    true)
  /\ try_block (["P1"; "1.0"; "2.0"; "3.0"; "10"; "20"; "30"] ++ ["40"; "note"])
     = Some ("P1", position P1_white, mkColor3D 10 20 30)
  /\ forall st',
       loop_body path st'
                 (["P1"; "1.0"; "2.0"; "3.0"; "10"; "20"; "30"] ++ ["40"; "note"])
       = loop_body path st' ["P1"; "1.0"; "2.0"; "3.0"; "10"; "20"; "30"].
Proof.
  apply (@extra_fields_ignored Decimal.builtins path initial
           "P1" "1.0" "2.0" "3.0" "10" "20" "30"
           (decimal false 10 1) (decimal false 20 1) (decimal false 30 1)
           10%Z 20%Z 30%Z ["40"; "note"]); try reflexivity.
  right. reflexivity.
Defined.

Lemma name_prefix_is_header_Name1 :
  for_rows path ([] ++ ["Name1"; "1.0"; "2.0"; "3.0"] :: []) initial
  = for_rows path [] (mkState [] true).
Proof.
  apply (@name_prefix_is_header Decimal.builtins path [] "Name1" ["1.0"; "2.0"; "3.0"] []).
  - constructor.
  - reflexivity.
Defined.


(** *** Where the code departs from the specification *)

(** C3: the name [a\b] is stored from a first row and comes again on a
    row whose coordinate is not a number: the parser raises the content
    error of that row, and its message, which shows the row as [repr]
    writes it, does not hold the name. *)
Lemma duplicate_on_malformed_row_hides_name :
  for_rows path [["a\b"; "1"; "2"; "3"]] initial = Return EdgeSamples.after_backslash
  /\ dict_contains "a\b" (result EdgeSamples.after_backslash) = true
  /\ parse_static_csv_zip
       (single_file path (render EdgeSamples.backslash_twice)) path
     = Raise (RuntimeError
                "Invalid content in input CSV file 'markers.csv', row ['a\\b', 'x', '2', '3']")
  /\ is_substring
       "a\b"
       "Invalid content in input CSV file 'markers.csv', row ['a\\b', 'x', '2', '3']"
     = false.
Proof. repeat split; reflexivity. Qed.


(** C8: the file of the one line [Name1,1.0,2.0,3.0] parses to the empty
    mapping: the row is skipped as a header, not parsed as data. *)
Lemma Name1_row_is_skipped :
  parse_static_csv_zip
    (single_file path ("Name1,1.0,2.0,3.0" ++ String LF "")%string) path
  = Return []
  /\ loop_body path initial ["Name1"; "1.0"; "2.0"; "3.0"]
     = Return (mkState [] true).
Proof. split; reflexivity. Qed.

(** C9: the line [,1.0,2.0,3.0] is parsed, and its entry is stored under
    the empty string. *)
Lemma empty_name_is_stored :
  parse_static_csv_zip
    (single_file path (",1.0,2.0,3.0" ++ String LF "")%string) path
  = Return [(""%string, P1_white)].
Proof. reflexivity. Qed.

End SampleRuns.

(* ================================================================== *)
(** * Further properties of the parser *)

Section OutcomeFacts.

Context {B : Builtins}.
Implicit Types (row : list string) (rows : list (list string)).
Implicit Types (d : Dict ImportedData) (st : loop_state).

Lemma reader_file_rows text : Csv.reader (readlines text) = (file_rows text, false).
Proof.
  unfold file_rows. pose proof (CsvFacts.reader_readlines text) as H.
  destruct (Csv.reader (readlines text)) as [rows failed]. simpl in *. now subst.
Qed.

(** The parser on a file that is read, within the field size limit: its
    data rows stored in order. *)
Lemma parse_file_rows fs filename text :
  fs filename = Some text ->
  parse_static_csv_zip fs filename
  = store_rows filename (data_rows false (file_rows text)) [].
Proof.
  intros Hfs. exact (parse_store_rows _ _ Hfs (reader_file_rows text)).
Qed.

Lemma entry_of_None row :
  nonblank row = true -> (entry_of row = None <-> coercion_fails row).
Proof.
  intros Hnb. unfold entry_of. split.
  - destruct (try_block row) as [[[name xyz] rgb]|] eqn:E; [discriminate|].
    intros _. destruct (try_block_None _ E) as [-> | H]; [discriminate | assumption].
  - intros H. now rewrite (coercion_fails_try_block H).
Qed.

Lemma data_rows_all_nonblank seen rows :
  Forall (fun row => nonblank row = true) (data_rows seen rows).
Proof.
  apply Forall_forall. intros row H. now apply data_rows_nonblank in H.
Qed.

(** Rows that all coerce have entries. *)
Lemma entries_of_rows rows :
  Forall (fun row => entry_of row <> None) rows ->
  exists entries : Dict ImportedData, map entry_of rows = map Some entries.
Proof.
  induction 1 as [|row rows Hrow _ [entries IH]]; [now exists []|].
  destruct (entry_of row) as [e|] eqn:E; [|congruence].
  exists (e :: entries). simpl. now rewrite E, IH.
Qed.

(** A failing run of [store_rows] stored the rows before the first one that
    [store_row] refuses. *)
Lemma store_rows_Raise filename rows d e :
  store_rows filename rows d = Raise e ->
  exists pre row post d',
    rows = pre ++ row :: post
    /\ store_rows filename pre d = Return d'
    /\ store_row filename d' row = Raise e.
Proof.
  revert d. induction rows as [|row rows IH]; intros d; simpl; [discriminate|].
  destruct (store_row filename d row) as [d1|e1] eqn:E; simpl.
  - intros H. apply IH in H as (pre & row' & post & d' & -> & Hpre & Hrow).
    exists (row :: pre), row', post, d'. simpl. rewrite E. simpl. auto.
  - intros [= ->]. exists [], row, rows, d. auto.
Qed.

(** X1: for a file that is read and whose rows the reader yields without
    raising, the parser returns a mapping exactly when no data row fails to
    coerce and the names of the data rows are pairwise distinct. *)
Theorem parse_succeeds_iff fs filename text rows :
  fs filename = Some text ->
  Csv.reader (readlines text) = (rows, false) ->
  (exists d, parse_static_csv_zip fs filename = Return d)
  <-> (Forall (fun row => ~ coercion_fails row) (data_rows false rows)
       /\ NoDup (map name_of (data_rows false rows))).
Proof.
  intros Hfs Hrows. rewrite (parse_store_rows _ _ Hfs Hrows).
  pose proof (data_rows_all_nonblank false rows) as Hnb.
  revert Hnb. generalize (data_rows false rows). clear. intros rows Hnb.
  split.
  - intros (d & Hd). apply store_rows_Return in Hd as (entries & -> & Hmap & Hnd).
    split.
    + apply Forall_forall. intros row Hin Hfail.
      apply (entry_of_None row) in Hfail;
        [|now apply (proj1 (Forall_forall _ _) Hnb)].
      apply (in_map entry_of) in Hin. rewrite Hmap, Hfail in Hin.
      apply in_map_iff in Hin as (e & He & _). discriminate.
    + rewrite <- (map_entry_of_keys _ _ Hmap). apply Hnd. constructor.
  - intros [Hok Hnd].
    assert (Hsome : Forall (fun row => entry_of row <> None) rows).
    { apply Forall_forall. intros row Hin Hnone.
      apply (proj1 (Forall_forall _ _) Hok row Hin).
      apply entry_of_None; [|assumption].
      now apply (proj1 (Forall_forall _ _) Hnb). }
    destruct (entries_of_rows Hsome) as [entries Hmap].
    exists entries. apply (store_rows_entries filename _ entries []); [assumption|].
    simpl. now rewrite (map_entry_of_keys _ _ Hmap).
Qed.

(** X2: for a file that is read and whose rows the reader yields without
    raising, every exception of the parser has its cause in a data row: the
    data rows before it were stored, and the row either fails to coerce,
    which raises the content error on it, or coerces and bears the name of
    an earlier data row, which raises the duplicate-name error on its
    name. *)
Theorem parse_error_cause fs filename text rows e :
  fs filename = Some text ->
  Csv.reader (readlines text) = (rows, false) ->
  parse_static_csv_zip fs filename = Raise e ->
  exists pre row post d,
    data_rows false rows = pre ++ row :: post
    /\ store_rows filename pre [] = Return d
    /\ ((coercion_fails row /\ e = invalid_content filename row)
        \/ (~ coercion_fails row
            /\ In (name_of row) (map name_of pre)
            /\ e = duplicate_name (name_of row))).
Proof.
  intros Hfs Hrows. rewrite (parse_store_rows _ _ Hfs Hrows). intros H.
  apply store_rows_Raise in H as (pre & row & post & d & Hdata & Hpre & Hrow).
  exists pre, row, post, d. repeat (split; [assumption|]).
  assert (Hnb : nonblank row = true).
  { apply (data_rows_nonblank false rows). rewrite Hdata.
    apply in_or_app. right. now left. }
  rewrite store_row_entry in Hrow.
  destruct (entry_of row) as [[name data]|] eqn:E.
  - right. pose proof (entry_of_name _ E) as Hname. simpl in Hname. subst name.
    destruct (dict_contains (name_of row) d) eqn:Hc; [|discriminate].
    injection Hrow as <-. split; [|split; [|reflexivity]].
    + intros Hfail. apply (entry_of_None row Hnb) in Hfail. congruence.
    + apply store_rows_Return in Hpre as (entries & -> & Hmap & _).
      apply dict_contains_In in Hc. simpl in Hc.
      now rewrite (map_entry_of_keys _ _ Hmap) in Hc.
  - left. injection Hrow as <-. split; [|reflexivity].
    now apply entry_of_None.
Qed.

(** X3: a row of one to three fields, or of five or six, is refused with
    the content error whatever its fields hold. *)
Theorem wrong_field_count_rejected filename d row :
  (length row < 4 \/ 4 < length row < 7)%nat ->
  store_row filename d row = Raise (invalid_content filename row).
Proof.
  intros H. unfold store_row.
  rewrite coercion_fails_try_block; [reflexivity|].
  unfold coercion_fails. destruct H as [H | H]; [left | right; right]; lia.
Qed.

(** X4: in the mapping of a successful parse, the name of every data row of
    the file looks up the entry coerced from that row. *)
Theorem data_row_lookup fs filename text d row :
  fs filename = Some text ->
  parse_static_csv_zip fs filename = Return d ->
  In row (data_rows false (file_rows text)) ->
  exists data,
    entry_of row = Some (name_of row, data)
    /\ dict_get (name_of row) d = Some data.
Proof.
  intros Hfs Hd Hin. rewrite (parse_file_rows _ _ Hfs) in Hd.
  apply store_rows_Return in Hd as (entries & -> & Hmap & Hnd). simpl in *.
  apply (in_map entry_of) in Hin. rewrite Hmap in Hin.
  apply in_map_iff in Hin as ([name data] & He & Hin).
  pose proof (entry_of_name _ (eq_sym He)) as Hname. simpl in Hname. subst name.
  exists data. split; [now symmetry|].
  apply dict_get_In; [apply Hnd; constructor | assumption].
Qed.


End OutcomeFacts.

(** * Further properties of file reading and of the reader *)

Module FileFacts.
Import Csv CsvFacts.

Lemma readlines_from_CRLF cur text :
  no_CR text = true ->
  readlines_from cur false (with_line_ending CRLF text) = readlines_from cur false text.
Proof.
  revert cur. induction text as [|c text IH]; intros cur H; [reflexivity|].
  simpl in H. apply andb_true_iff in H as [Hc H]. apply negb_true_iff in Hc.
  cbn [with_line_ending]. destruct (Ascii.eqb c LF) eqn:Hlf.
  - apply Ascii.eqb_eq in Hlf. subst c. simpl. now rewrite IH.
  - cbn [readlines_from]. rewrite Hlf, Hc. now apply IH.
Qed.

Lemma readlines_from_CR cur pending text :
  no_CR text = true ->
  readlines_from cur pending (with_line_ending (String CR "") text)
  = readlines_from cur false text.
Proof.
  revert cur pending. induction text as [|c text IH]; intros cur pending H;
    [reflexivity|].
  simpl in H. apply andb_true_iff in H as [Hc H]. apply negb_true_iff in Hc.
  cbn [with_line_ending]. destruct (Ascii.eqb c LF) eqn:Hlf.
  - apply Ascii.eqb_eq in Hlf. subst c. simpl. now rewrite IH.
  - cbn [readlines_from]. rewrite Hlf, Hc. now apply IH.
Qed.

(** X8: a file written with CR LF or with CR line endings is cut into the
    same lines, and so parsed to the same outcome, as the file written
    with LF. *)
Theorem line_endings_do_not_matter
        {B : Builtins} fs fs' filename text ending :
  ending = CRLF \/ ending = String CR "" ->
  no_CR text = true ->
  fs filename = Some text ->
  fs' filename = Some (with_line_ending ending text) ->
  readlines (with_line_ending ending text) = readlines text
  /\ parse_static_csv_zip fs' filename = parse_static_csv_zip fs filename.
Proof.
  intros Hending Hcr Hfs Hfs'.
  assert (Hlines : readlines (with_line_ending ending text) = readlines text).
  { unfold readlines.
    destruct Hending as [-> | ->];
      [now apply readlines_from_CRLF | now apply readlines_from_CR]. }
  split; [assumption|].
  unfold parse_static_csv_zip. now rewrite Hfs, Hfs', Hlines.
Qed.








End FileFacts.

(** * Quoted fields *)

Module QuotingFacts.
Import Csv CsvFacts.










End QuotingFacts.

(** * Sizes and messages *)

Section SizeFacts.

Context {B : Builtins}.

Lemma rows_from_length rd lines :
  length (fst (Csv.rows_from rd lines)) <= S (length lines)
  /\ (Csv.field rd = ""%string -> Csv.state rd <> Csv.IN_QUOTED_FIELD ->
      length (fst (Csv.rows_from rd lines)) <= length lines).
Proof.
  revert rd. induction lines as [|line lines IH]; intros rd; simpl.
  - split.
    + destruct (negb (Csv.field rd =? "")%string
                || Csv.state_eqb (Csv.state rd) Csv.IN_QUOTED_FIELD); simpl; lia.
    + intros -> Hstate. simpl.
      destruct (Csv.state rd); simpl; try lia. congruence.
  - assert (Hboth : length (fst (match Csv.process_line rd line with
                                 | Some r' =>
                                     if Csv.state_eqb (Csv.state r') Csv.START_RECORD
                                     then let (rows, failed) :=
                                            Csv.rows_from Csv.parse_reset lines in
                                          (Csv.fields r' :: rows, failed)
                                     else Csv.rows_from r' lines
                                 | None => ([], true)
                                 end)) <= S (length lines)).
    { destruct (Csv.process_line rd line) as [r'|]; [|simpl; lia].
      destruct (Csv.state_eqb (Csv.state r') Csv.START_RECORD).
      - destruct (IH Csv.parse_reset) as [_ Hfresh].
        specialize (Hfresh eq_refl). 
        destruct (Csv.rows_from Csv.parse_reset lines). simpl in *.
        apply le_n_S. apply Hfresh. discriminate.
      - apply IH. }
    split; [lia | intros _ _; exact Hboth].
Qed.

Lemma data_rows_length seen rows : length (data_rows seen rows) <= length rows.
Proof.
  revert seen. induction rows as [|[|f tl] rows IH]; intros seen; simpl.
  - lia.
  - specialize (IH seen). lia.
  - destruct (negb seen && startswith (lower f) "name"); simpl;
      specialize (IH true); lia.
Qed.

(** X11: the mapping of a successful parse has as many entries as the file
    has data rows, and no more entries than the file has lines. *)
Theorem entries_bounded_by_lines fs filename text d :
  fs filename = Some text ->
  parse_static_csv_zip fs filename = Return d ->
  length d = length (data_rows false (file_rows text))
  /\ length d <= length (readlines text).
Proof.
  intros Hfs Hd. rewrite (parse_file_rows _ _ Hfs) in Hd.
  apply store_rows_Return in Hd as (entries & -> & Hmap & _). simpl.
  assert (Hlen : length entries = length (data_rows false (file_rows text))).
  { rewrite <- (length_map Some entries), <- Hmap. apply length_map. }
  split; [assumption|]. rewrite Hlen.
  etransitivity; [apply data_rows_length|].
  unfold file_rows, Csv.reader.
  apply rows_from_length; [reflexivity | discriminate].
Qed.

Lemma repr_char_verbatim c :
  ((32 <=? code c) && (code c <? 127))%N
  && negb (Ascii.eqb c squote) && negb (Ascii.eqb c backslash) = true ->
  repr_char squote c = String c "".
Proof.
  destruct c as [[] [] [] [] [] [] [] []]; intros H;
    try discriminate H; reflexivity.
Qed.

Lemma repr_verbatim s :
  verbatim s = true -> repr s = String squote (s ++ String squote "").
Proof.
  intros H.
  assert (Hq : contains_char squote s = false).
  { induction s as [|c s IH]; [reflexivity|]. cbn [verbatim contains_char] in *.
    apply andb_true_iff in H as [H Hs].
    apply andb_true_iff in H as [H _]. apply andb_true_iff in H as [_ H].
    apply negb_true_iff in H. rewrite Ascii.eqb_sym, H. now apply IH. }
  unfold repr, repr_quote. rewrite Hq. cbn [andb]. f_equal. f_equal. clear Hq.
  induction s as [|c s IH]; [reflexivity|]. cbn [verbatim repr_body] in *.
  apply andb_true_iff in H as [H Hs].
  rewrite (repr_char_verbatim _ H). cbn [append]. now rewrite IH.
Qed.

(** X12: for a file path of printable ASCII characters other than the
    single quote and the backslash, the content error shows the path as it
    is, between single quotes. *)
Theorem content_error_shows_path filename d row :
  verbatim filename = true ->
  coercion_fails row ->
  store_row filename d row
  = Raise (RuntimeError
             ("Invalid content in input CSV file '" ++ filename ++ "', row "
              ++ repr_list row)%string).
Proof.
  intros Hv Hfail. unfold store_row.
  rewrite (coercion_fails_try_block Hfail).
  unfold invalid_content. rewrite (repr_verbatim _ Hv).
  unfold squote. cbn [append]. now rewrite append_assoc.
Qed.

End SizeFacts.

(** * The operator *)

Section OperatorFacts.

Context {B : Builtins}.
Variables (vector channel : Type).
Variable point_as_vector : Point3D -> vector.
Variable color_as_vector : Color3D -> list channel.
Variable ensure_ext : string -> string -> string.

(** X13: the operator returns CANCELLED exactly when the parser raised a
    [RuntimeError], and then all it did was to report the message of the
    error: no marker is added and no light effect is made of a file that
    does not parse. *)
Theorem cancelled_iff_parse_error fs inv calls :
  execute_on_formation point_as_vector color_as_vector ensure_ext fs inv
  = Return (calls, CANCELLED)
  <-> exists message,
        parse_static_csv_zip fs (ensure_ext (self_filepath inv) filename_ext)
        = Raise (RuntimeError message)
        /\ calls = [report "ERROR" message].
Proof.
  unfold execute_on_formation.
  destruct (parse_static_csv_zip fs (ensure_ext (self_filepath inv) filename_ext))
    as [d|[message| | | |]]; split;
    try (intros H; discriminate H);
    try (intros (message' & H & _); discriminate H).
  - intros [= <-]. now exists message.
  - intros (message' & [= <-] & ->). reflexivity.
Qed.

(** X14: the operator catches [RuntimeError] and nothing else: it raises
    exactly what the parser raises that is not a [RuntimeError], and such
    an exception is not reported. *)
Theorem operator_raises_iff fs inv e :
  execute_on_formation point_as_vector color_as_vector ensure_ext fs inv = Raise e
  <-> (parse_static_csv_zip fs (ensure_ext (self_filepath inv) filename_ext)
       = Raise e
       /\ forall message, e <> RuntimeError message).
Proof.
  unfold execute_on_formation. split.
  - destruct (parse_static_csv_zip fs (ensure_ext (self_filepath inv) filename_ext))
      as [d|[message| | | |]]; intros H; try discriminate H;
      injection H as <-; (split; [reflexivity | discriminate]).
  - intros [-> Hne]. destruct e; try reflexivity. now destruct (Hne message).
Qed.

(** X15: when the operator finishes, the markers it adds are as many as
    the data rows of the file, and it adds markers exactly when there is a
    data row; the image of the light effect is one pixel wide and has one
    row per data row, and it is made exactly when light effects exist. *)
Theorem finished_counts fs inv text calls :
  fs (ensure_ext (self_filepath inv) filename_ext) = Some text ->
  execute_on_formation point_as_vector color_as_vector ensure_ext fs inv
  = Return (calls, FINISHED) ->
  (forall points,
      In (add_points_to_formation points) calls ->
      length points = length (data_rows false (file_rows text)))
  /\ ((exists points, In (add_points_to_formation points) calls)
      <-> data_rows false (file_rows text) <> [])
  /\ (forall name width height,
         In (create_color_image name width height) calls ->
         width = 1 /\ height = length (data_rows false (file_rows text)))
  /\ ((exists name width height, In (create_color_image name width height) calls)
      <-> light_effects inv = true).
Proof.
  intros Hfs. unfold execute_on_formation.
  destruct (parse_static_csv_zip fs (ensure_ext (self_filepath inv) filename_ext))
    as [d|[message| | | |]] eqn:Hd;
    try discriminate.
  rewrite (parse_file_rows _ _ Hfs) in Hd.
  apply store_rows_Return in Hd as (entries & -> & Hmap & _). simpl app.
  assert (Hlen : length entries = length (data_rows false (file_rows text))).
  { rewrite <- (length_map Some entries), <- Hmap. apply length_map. }
  assert (Hnil : data_rows false (file_rows text) <> [] <-> entries <> []).
  { destruct (data_rows false (file_rows text)), entries; simpl in Hlen;
      try discriminate; split; congruence. }
  unfold formation_points, light_effect_pixels, dict_values.
  intros [= <-]. rewrite !length_map, <- Hlen. rewrite Hnil. clear Hmap Hlen Hnil.
  destruct entries as [|entry entries]; destruct (light_effects inv); simpl;
    repeat split;
    repeat match goal with
           | |- _ -> _ => intro
           | H : _ \/ _ |- _ => destruct H
           | H : exists _, _ |- _ => destruct H
           | H : False |- _ => destruct H
           | H : _ = _ |- _ => discriminate H
           | H : add_points_to_formation _ = add_points_to_formation _ |- _ =>
               injection H as <-
           | H : create_color_image _ _ _ = create_color_image _ _ _ |- _ =>
               injection H as <- <- <-
           end;
    simpl; rewrite ?length_map; try reflexivity; try congruence; eauto 8.
Qed.


End OperatorFacts.

(** * Empty lines, the header test and the growth of the result *)

Section LoopInvariants.

Context {B : Builtins}.
Variables (vector channel : Type).
Variable point_as_vector : Point3D -> vector.
Variable color_as_vector : Color3D -> list channel.
Variable ensure_ext : string -> string -> string.

Lemma for_rows_nonblank filename rows st :
  for_rows filename (filter nonblank rows) st = for_rows filename rows st.
Proof.
  revert st. induction rows as [|[|field0 tl] rows IH]; intros st;
    [reflexivity | apply IH |].
  cbn [filter nonblank for_rows].
  destruct (loop_body filename st (field0 :: tl)); simpl; [apply IH | reflexivity].
Qed.

(** X17: empty lines never matter, wherever they stand: two files whose
    rows with fields are the same parse to the same outcome. *)
Theorem empty_lines_do_not_matter fs fs' filename text text' :
  fs filename = Some text ->
  fs' filename = Some text' ->
  filter nonblank (file_rows text) = filter nonblank (file_rows text') ->
  parse_static_csv_zip fs' filename = parse_static_csv_zip fs filename.
Proof.
  intros Hfs Hfs' Hrows.
  rewrite (parse_unfold _ _ Hfs (reader_file_rows text)).
  rewrite (parse_unfold _ _ Hfs' (reader_file_rows text')).
  now rewrite <- (for_rows_nonblank _ (file_rows text)), Hrows, for_rows_nonblank.
Qed.

Lemma lower_char_is (c l u : ascii) :
  (l = "n"%char /\ u = "N"%char) \/ (l = "a"%char /\ u = "A"%char)
  \/ (l = "m"%char /\ u = "M"%char) \/ (l = "e"%char /\ u = "E"%char) ->
  lower_char c = l <-> (c = l \/ c = u).
Proof.
  intros [[-> ->] | [[-> ->] | [[-> ->] | [-> ->]]]];
    (split;
     [ destruct c as [[] [] [] [] [] [] [] []]; intros H;
       try discriminate H; auto
     | intros [-> | ->]; reflexivity ]).
Qed.

Lemma prefix_String a p c s :
  String.prefix (String a p) (String c s) = Ascii.eqb a c && String.prefix p s.
Proof.
  cbn [String.prefix]. destruct (Ascii.ascii_dec a c) as [->|Hne].
  - now rewrite Ascii.eqb_refl.
  - apply Ascii.eqb_neq in Hne. now rewrite Hne.
Qed.

(** X18: the header test reads the first four characters of the first
    field only: the field passes it exactly when these are the letters n,
    a, m, e, each in either case. *)
Theorem header_test_letters field0 :
  startswith (lower field0) "name" = true
  <-> exists c1 c2 c3 c4 rest,
        field0 = String c1 (String c2 (String c3 (String c4 rest)))
        /\ (c1 = "n"%char \/ c1 = "N"%char) /\ (c2 = "a"%char \/ c2 = "A"%char)
        /\ (c3 = "m"%char \/ c3 = "M"%char) /\ (c4 = "e"%char \/ c4 = "E"%char).
Proof.
  unfold startswith. split.
  - destruct field0 as [|c1 [|c2 [|c3 [|c4 rest]]]]; cbn [lower];
      rewrite ?prefix_String; cbn [String.prefix]; rewrite ?andb_false_r;
      try discriminate.
    rewrite !andb_true_iff, !Ascii.eqb_eq.
    intros (H1 & H2 & H3 & H4 & _).
    exists c1, c2, c3, c4, rest. split; [reflexivity|].
    symmetry in H1, H2, H3, H4.
    apply (@lower_char_is c1 "n"%char "N"%char) in H1; [|tauto].
    apply (@lower_char_is c2 "a"%char "A"%char) in H2; [|tauto].
    apply (@lower_char_is c3 "m"%char "M"%char) in H3; [|tauto].
    apply (@lower_char_is c4 "e"%char "E"%char) in H4; [|tauto].
    tauto.
  - intros (c1 & c2 & c3 & c4 & rest & -> & H1 & H2 & H3 & H4).
    cbn [lower]. rewrite !prefix_String.
    apply (@lower_char_is c1 "n"%char "N"%char) in H1; [|tauto].
    apply (@lower_char_is c2 "a"%char "A"%char) in H2; [|tauto].
    apply (@lower_char_is c3 "m"%char "M"%char) in H3; [|tauto].
    apply (@lower_char_is c4 "e"%char "E"%char) in H4; [|tauto].
    rewrite H1, H2, H3, H4, !Ascii.eqb_refl. now destruct (lower rest).
Qed.

(** X19: the loop only appends: whatever the result holds when the loop
    starts on some rows is still there, unchanged and in place, when the
    loop ends; no entry is overwritten or removed. *)
Theorem result_only_grows filename rows st st' :
  for_rows filename rows st = Return st' ->
  exists added,
    result st' = result st ++ added
    /\ map entry_of (data_rows (header_passed st) rows) = map Some added.
Proof.
  intros H. pose proof (for_rows_data_rows filename rows st) as E.
  rewrite H in E. simpl in E. symmetry in E.
  apply store_rows_Return in E as (added & -> & Hmap & _).
  now exists added.
Qed.

(** X20: when [as_vector] gives every color the same number of channels,
    the pixels the operator sets are that number of values for each row of
    the image it created. *)
Theorem pixels_fill_the_image fs inv text calls k pixels :
  (forall c, length (color_as_vector c) = k) ->
  fs (ensure_ext (self_filepath inv) filename_ext) = Some text ->
  execute_on_formation point_as_vector color_as_vector ensure_ext fs inv
  = Return (calls, FINISHED) ->
  In (pixels_foreach_set pixels) calls ->
  length pixels = k * length (data_rows false (file_rows text))
  /\ exists name,
       In (create_color_image name 1 (length (data_rows false (file_rows text))))
          calls.
Proof.
  intros Hk Hfs. unfold execute_on_formation.
  destruct (parse_static_csv_zip fs (ensure_ext (self_filepath inv) filename_ext))
    as [d|[message| | | |]] eqn:Hd; try discriminate.
  rewrite (parse_file_rows _ _ Hfs) in Hd.
  apply store_rows_Return in Hd as (entries & -> & Hmap & _). simpl app.
  assert (Hlen : length entries = length (data_rows false (file_rows text))).
  { rewrite <- (length_map Some entries), <- Hmap. apply length_map. }
  rewrite <- Hlen. clear Hmap Hlen.
  assert (Hpixels : length (light_effect_pixels color_as_vector entries)
                    = k * length entries).
  { unfold light_effect_pixels, dict_values. clear -Hk.
    induction entries as [|entry entries IH]; simpl; [lia|].
    rewrite length_app, Hk, IH. lia. }
  intros [= <-] Hin. apply in_app_or in Hin as [Hin | Hin].
  - destruct (formation_points point_as_vector entries); simpl in Hin;
      destruct Hin as [Hin | []]; discriminate Hin.
  - destruct (light_effects inv) eqn:Hlight; [|destruct Hin].
    simpl in Hin.
    destruct Hin as [Hin | [Hin | [Hin | [Hin | []]]]]; try discriminate Hin.
    injection Hin as <-. split; [assumption|].
    exists ("Image for light effect '" ++ formation_name inv ++ "'")%string.
    apply in_or_app. right. simpl.
    unfold dict_values. rewrite !length_map. auto.
Qed.

End LoopInvariants.

(** * The further properties on sample files *)

Section MoreSampleRuns.

Import Samples OperatorSamples.
#[local] Existing Instance Decimal.builtins.

Lemma parse_succeeds_iff_markers :
  (exists d, parse_static_csv_zip (single_file path (render markers)) path = Return d)
  <-> (Forall (fun row => ~ coercion_fails row) (data_rows false markers)
       /\ NoDup (map name_of (data_rows false markers))).
Proof.
  apply (@parse_succeeds_iff Decimal.builtins (single_file path (render markers))
           path (render markers) markers); reflexivity.
Defined.

Lemma parse_error_cause_twice :
  exists pre row post d,
    data_rows false twice = pre ++ row :: post
    /\ store_rows path pre [] = Return d
    /\ ((coercion_fails row /\ duplicate_name "P1" = invalid_content path row)
        \/ (~ coercion_fails row
            /\ In (name_of row) (map name_of pre)
            /\ duplicate_name "P1" = duplicate_name (name_of row))).
Proof.
  apply (@parse_error_cause Decimal.builtins (single_file path (render twice)) path
           (render twice) twice (duplicate_name "P1")); reflexivity.
Defined.

Lemma wrong_field_count_rejected_three :
  store_row path [] ["P1"; "1.0"; "2.0"]
  = Raise (invalid_content path ["P1"; "1.0"; "2.0"]).
Proof.
  apply (@wrong_field_count_rejected Decimal.builtins path [] ["P1"; "1.0"; "2.0"]).
  left. simpl. lia.
Defined.

Lemma data_row_lookup_P2 :
  exists data,
    entry_of ["P2"; "0"; "-1.5"; "2"; "10"; "20"; "30"]
    = Some (name_of ["P2"; "0"; "-1.5"; "2"; "10"; "20"; "30"], data)
    /\ dict_get (name_of ["P2"; "0"; "-1.5"; "2"; "10"; "20"; "30"]) markers_entries
       = Some data.
Proof.
  apply (@data_row_lookup Decimal.builtins (single_file path (render markers)) path
           (render markers) markers_entries).
  - reflexivity.
  - reflexivity.
  - simpl. right. left. reflexivity.
Defined.


Lemma line_endings_do_not_matter_markers :
  readlines (with_line_ending CRLF (render markers)) = readlines (render markers)
  /\ parse_static_csv_zip
       (single_file path (with_line_ending CRLF (render markers))) path
     = parse_static_csv_zip (single_file path (render markers)) path.
Proof.
  apply (@FileFacts.line_endings_do_not_matter Decimal.builtins
           (single_file path (render markers))
           (single_file path (with_line_ending CRLF (render markers)))
           path (render markers) CRLF).
  - left. reflexivity.
  - reflexivity.
  - reflexivity.
  - reflexivity.
Defined.



Lemma entries_bounded_by_lines_markers :
  length markers_entries = length (data_rows false (file_rows (render markers)))
  /\ length markers_entries <= length (readlines (render markers)).
Proof.
  apply (@entries_bounded_by_lines Decimal.builtins
           (single_file path (render markers)) path (render markers) markers_entries);
    reflexivity.
Defined.

Lemma content_error_shows_path_malformed :
  store_row path [] ["P1"; "abc"; "2.0"; "3.0"]
  = Raise (RuntimeError
             ("Invalid content in input CSV file '" ++ path ++ "', row "
              ++ repr_list ["P1"; "abc"; "2.0"; "3.0"])%string).
Proof.
  apply (@content_error_shows_path Decimal.builtins path []
           ["P1"; "abc"; "2.0"; "3.0"]).
  - reflexivity.
  - right. left. exists 1. split; [lia | reflexivity].
Defined.

Lemma finished_counts_markers :
  (forall points,
      In (add_points_to_formation points) calls_of_markers ->
      length points = length (data_rows false (file_rows (render markers))))
  /\ ((exists points, In (add_points_to_formation points) calls_of_markers)
      <-> data_rows false (file_rows (render markers)) <> [])
  /\ (forall name width height,
         In (create_color_image name width height) calls_of_markers ->
         width = 1 /\ height = length (data_rows false (file_rows (render markers))))
  /\ ((exists name width height,
          In (create_color_image name width height) calls_of_markers)
      <-> light_effects import_markers = true).
Proof.
  apply (@finished_counts Decimal.builtins Point3D Z (fun p => p) channels add_ext
           (single_file path (render markers)) import_markers (render markers)
           calls_of_markers).
  - reflexivity.
  - reflexivity.
Defined.


Lemma empty_lines_do_not_matter_markers :
  parse_static_csv_zip (single_file path (render spread_markers)) path
  = parse_static_csv_zip (single_file path (render markers)) path.
Proof.
  apply (@empty_lines_do_not_matter Decimal.builtins
           (single_file path (render markers))
           (single_file path (render spread_markers))
           path (render markers) (render spread_markers)); reflexivity.
Defined.

Lemma result_only_grows_P2 :
  exists added,
    result after_second = result after_first ++ added
    /\ map entry_of
           (data_rows (header_passed after_first)
                      [["P2"; "0"; "-1.5"; "2"; "10"; "20"; "30"]])
       = map Some added.
Proof.
  apply (@result_only_grows Decimal.builtins path
           [["P2"; "0"; "-1.5"; "2"; "10"; "20"; "30"]] after_first after_second).
  reflexivity.
Defined.

Lemma pixels_fill_the_image_markers :
  length [255; 255; 255; 10; 20; 30]%Z
  = 3 * length (data_rows false (file_rows (render markers)))
  /\ exists name,
       In (create_color_image
             name 1 (length (data_rows false (file_rows (render markers)))))
          calls_of_markers.
Proof.
  apply (@pixels_fill_the_image Decimal.builtins Point3D Z (fun p => p) channels
           add_ext (single_file path (render markers)) import_markers
           (render markers) calls_of_markers 3 [255; 255; 255; 10; 20; 30]%Z).
  - reflexivity.
  - reflexivity.
  - reflexivity.
  - simpl. do 4 right. left. reflexivity.
Defined.

End MoreSampleRuns.
